(** * A TensorFlow teaching notebook: one ReLU layer and its training loop

    The repository holds two variants of one notebook,
    [Part-III-tensorflow-introduction.ipynb] and a second copy of it with a
    larger learning rate and more iterations.  Both build a single dense
    layer [relu (W x + b)] out of framework operations, evaluate it in a
    session, and run a few gradient-descent steps on random inputs.

    The development has these parts.
    - [TF] and [NP]: the framework operations the notebooks call (array
      kernels, graph nodes, evaluation in a session, gradients and the
      gradient-descent update) and the few numpy calls.
    - [Notebook]: the cells as a program over the framework, with numpy's
      generator, the variables of the default graph, the session and the
      printed output as explicit state.
    - [Py]: the abstract syntax of the code cells, with both notebooks
      transcribed statement by statement, the traversals that say what the
      statements are and call, and a builder that reads the
      graph-construction statements as the graph nodes of [TF].
    - [Spec]: the notions the statements are phrased with.

    - [F32]: the arithmetic of the tensors of the layer, IEEE 754 binary32
      with its rounding, infinities and NaN, and the evaluation of the graph
      in it.

    In [TF] and [Notebook] numbers are exact rationals: these parts carry
    what the cells build, run, feed and print, which does not depend on how
    a sum is rounded.  What is said about the numbers the layer computes is
    said in [F32]. *)

From Stdlib Require Import QArith Qpower Qminmax Lqa Lia SpecFloat.
From stdpp Require Import gmap strings list.

Open Scope Q_scope.
Open Scope string_scope.
Open Scope list_scope.

(** The characters the escapes [\t] and [\n] of a Python string stand for. *)
Definition tab : string := String (Ascii.ascii_of_nat 9) "".
Definition newline : string := String (Ascii.ascii_of_nat 10) "".

(** ** The framework *)

Module TF.

(** An array is a shape and its entries in row-major order. *)
Record ndarray := NDArray { shape : list nat; data : list Q }.

Definition numel (s : list nat) : nat := foldr Nat.mul 1%nat s.

Definition sum (l : list Q) : Q := foldr Qplus 0 l.

(** What the framework raises. *)
Inductive error :=
| ShapeError                      (* incompatible shapes in an operation or a feed *)
| MissingFeed (p : string)        (* a placeholder that is needed was not fed *)
| Uninitialized (v : string).     (* a variable is read before its initializer ran *)

Inductive result (A : Type) :=
| Ok (a : A)
| Raise (e : error).
Arguments Ok {A} a.
Arguments Raise {A} e.

Definition bind {A B} (r : result A) (k : A -> result B) : result B :=
  match r with
  | Ok a => k a
  | Raise e => Raise e
  end.

Notation "x <- c ;; k" := (bind c (fun x => k))
  (at level 100, c at next level, right associativity).

(** *** Kernels *)

(** [tf.reshape]: the entries are kept, the shape must have as many. *)
Definition reshape (a : ndarray) (s : list nat) : result ndarray :=
  if Nat.eqb (numel s) (length (data a))
  then Ok (NDArray s (data a))
  else Raise ShapeError.

Definition entry (d : list Q) (i : nat) : Q := nth i d 0.

(** [tf.matmul] of an [m,k] matrix and a [k,n] matrix. *)
Definition matmul (a b : ndarray) : result ndarray :=
  match shape a, shape b with
  | [m; k], [k'; n] =>
      if Nat.eqb k k' && Nat.eqb (length (data a)) (m * k)
         && Nat.eqb (length (data b)) (k * n)
      then Ok (NDArray [m; n]
             (flat_map (fun i =>
                map (fun j =>
                  sum (map (fun l => entry (data a) (i * k + l)
                                     * entry (data b) (l * n + j))
                           (seq 0 k)))
                    (seq 0 n))
                (seq 0 m)))
      else Raise ShapeError
  | _, _ => Raise ShapeError
  end.

Definition transpose (a : ndarray) : result ndarray :=
  match shape a with
  | [m; n] =>
      Ok (NDArray [n; m]
            (flat_map (fun j => map (fun i => entry (data a) (i * n + j)) (seq 0 m))
                      (seq 0 n)))
  | _ => Raise ShapeError
  end.

Fixpoint shape_eqb (s t : list nat) : bool :=
  match s, t with
  | [], [] => true
  | m :: s, n :: t => Nat.eqb m n && shape_eqb s t
  | _, _ => false
  end.

(** Componentwise binary operations; the notebook only combines arrays of
    one and the same shape, other pairs of shapes are reported as a shape
    error. *)
Definition pointwise (f : Q -> Q -> Q) (a b : ndarray) : result ndarray :=
  if shape_eqb (shape a) (shape b)
  then Ok (NDArray (shape a) (zip_with f (data a) (data b)))
  else Raise ShapeError.

Definition add := pointwise Qplus.
Definition sub := pointwise Qminus.
Definition mul := pointwise Qmult.

Definition map_entries (f : Q -> Q) (a : ndarray) : ndarray :=
  NDArray (shape a) (map f (data a)).

(** [tf.nn.relu]: [max(features, 0)]. *)
Definition relu_scalar (x : Q) : Q := Qmax x 0.
Definition relu := map_entries relu_scalar.

(** [tf.square]. *)
Definition square := map_entries (fun x => x * x).

(** [tf.reduce_sum] over all axes. *)
Definition reduce_sum (a : ndarray) : ndarray :=
  NDArray [] [sum (data a)].

Definition fill (s : list nat) (x : Q) : ndarray :=
  NDArray s (replicate (numel s) x).

(** *** Graph nodes *)

(** A declared dimension is a size or unknown ([None] in a shape). *)
Definition static_shape := list (option nat).

Inductive tensor :=
| Const (v : ndarray)
| Var (name : string)
| Placeholder (name : string) (shp : static_shape)
| Reshape (t : tensor) (shp : list nat)
| MatMul (a b : tensor)
| Add (a b : tensor)
| Sub (a b : tensor)
| Relu (t : tensor)
| Square (t : tensor)
| ReduceSum (t : tensor).

Definition compatible (decl : static_shape) (s : list nat) : bool :=
  Nat.eqb (length decl) (length s)
  && forallb (fun p => match fst p with
                       | Some d => Nat.eqb d (snd p)
                       | None => true
                       end) (combine decl s).

(** The placeholders a tensor depends on. *)
Fixpoint placeholders (t : tensor) : gset string :=
  match t with
  | Const _ | Var _ => ∅
  | Placeholder p _ => {[ p ]}
  | Reshape t _ | Relu t | Square t | ReduceSum t => placeholders t
  | MatMul a b | Add a b | Sub a b => placeholders a ∪ placeholders b
  end.

(** *** Evaluation in a session

    [vars] holds the current values of the variables of the session, [feed]
    is the [feed_dict] of the call.  A fed array is checked against its
    placeholder where the evaluation reaches the placeholder, and of several
    errors the first in the order of evaluation is the result; the framework
    checks every fed array before it evaluates anything and, where several
    things are missing, may name another of them. *)
Fixpoint eval (vars feed : gmap string ndarray) (t : tensor) : result ndarray :=
  match t with
  | Const v => Ok v
  | Var x =>
      match vars !! x with
      | Some v => Ok v
      | None => Raise (Uninitialized x)
      end
  | Placeholder p shp =>
      match feed !! p with
      | Some v => if compatible shp (shape v) then Ok v else Raise ShapeError
      | None => Raise (MissingFeed p)
      end
  | Reshape t s => v <- eval vars feed t ;; reshape v s
  | MatMul a b => va <- eval vars feed a ;; vb <- eval vars feed b ;; matmul va vb
  | Add a b => va <- eval vars feed a ;; vb <- eval vars feed b ;; add va vb
  | Sub a b => va <- eval vars feed a ;; vb <- eval vars feed b ;; sub va vb
  | Relu t => v <- eval vars feed t ;; Ok (relu v)
  | Square t => v <- eval vars feed t ;; Ok (square v)
  | ReduceSum t => v <- eval vars feed t ;; Ok (reduce_sum v)
  end.

(** *** Gradients and the gradient-descent optimizer *)

Definition accumulate (x : string) (g : ndarray) (acc : gmap string ndarray)
  : result (gmap string ndarray) :=
  match acc !! x with
  | None => Ok (<[x := g]> acc)
  | Some g0 => g' <- add g0 g ;; Ok (<[x := g']> acc)
  end.

(** Reverse accumulation: [up] is the gradient of the loss with respect to
    the value of [t]; the gradients with respect to the variables below [t]
    are added to [acc]. *)
Fixpoint backprop (vars feed : gmap string ndarray) (t : tensor) (up : ndarray)
    (acc : gmap string ndarray) : result (gmap string ndarray) :=
  match t with
  | Const _ | Placeholder _ _ => Ok acc
  | Var x => accumulate x up acc
  | Reshape t _ =>
      v <- eval vars feed t ;;
      up' <- reshape up (shape v) ;;
      backprop vars feed t up' acc
  | MatMul a b =>
      va <- eval vars feed a ;;
      vb <- eval vars feed b ;;
      vbT <- transpose vb ;;
      vaT <- transpose va ;;
      ga <- matmul up vbT ;;
      gb <- matmul vaT up ;;
      acc' <- backprop vars feed a ga acc ;;
      backprop vars feed b gb acc'
  | Add a b =>
      acc' <- backprop vars feed a up acc ;;
      backprop vars feed b up acc'
  | Sub a b =>
      acc' <- backprop vars feed a up acc ;;
      backprop vars feed b (map_entries Qopp up) acc'
  | Relu t =>
      v <- eval vars feed t ;;
      g <- mul up (map_entries (fun x => if Qlt_le_dec 0 x then 1 else 0) v) ;;
      backprop vars feed t g acc
  | Square t =>
      v <- eval vars feed t ;;
      g <- mul up (map_entries (fun x => 2 * x) v) ;;
      backprop vars feed t g acc
  | ReduceSum t =>
      v <- eval vars feed t ;;
      match data up with
      | [u] => backprop vars feed t (fill (shape v) u) acc
      | _ => Raise ShapeError
      end
  end.

Definition gradients (vars feed : gmap string ndarray) (loss : tensor)
  : result (gmap string ndarray) :=
  backprop vars feed loss (NDArray [] [1]) ∅.

(** One variable after a descent step: [v - rate * g]. *)
Definition descend (rate : Q) (v g : ndarray) : ndarray :=
  NDArray (shape v) (zip_with (fun vi gi => vi - rate * gi) (data v) (data g)).

(** What a session can be asked to run. *)
Inductive fetch :=
| FetchTensor (t : tensor)
| FetchInit (inits : list (string * ndarray))   (* tf.global_variables_initializer() *)
| FetchMinimize (rate : Q) (loss : tensor).     (* optimizer.minimize(loss) *)

Definition fetch_placeholders (f : fetch) : gset string :=
  match f with
  | FetchTensor t => placeholders t
  | FetchInit _ => ∅
  | FetchMinimize _ loss => placeholders loss
  end.

(** The value a fetch returns: an array for a tensor, [None] for an
    operation. *)
Definition fetch_value (vars feed : gmap string ndarray) (f : fetch)
  : result (option ndarray) :=
  match f with
  | FetchTensor t => v <- eval vars feed t ;; Ok (Some v)
  | FetchInit _ | FetchMinimize _ _ => Ok None
  end.

Fixpoint fetch_values (vars feed : gmap string ndarray) (fs : list fetch)
  : result (list (option ndarray)) :=
  match fs with
  | [] => Ok []
  | f :: fs =>
      v <- fetch_value vars feed f ;;
      vs <- fetch_values vars feed fs ;;
      Ok (v :: vs)
  end.

Fixpoint apply_fetches (vars0 feed : gmap string ndarray) (fs : list fetch)
    (vars : gmap string ndarray) : result (gmap string ndarray) :=
  match fs with
  | [] => Ok vars
  | FetchTensor _ :: fs => apply_fetches vars0 feed fs vars
  | FetchInit inits :: fs =>
      apply_fetches vars0 feed fs (foldr (fun kv m => <[kv.1 := kv.2]> m) vars inits)
  | FetchMinimize rate loss :: fs =>
      gs <- gradients vars0 feed loss ;;
      apply_fetches vars0 feed fs
        (merge (fun ov og =>
                  match ov, og with
                  | Some v, Some g => Some (descend rate v g)
                  | _, _ => ov
                  end) vars gs)
  end.

(** [session.run(fetches, feed_dict)]: the fetched tensors are computed from
    the variables as they are when the call starts, then the updates are
    applied.  This is the order of the runs of the notebooks, whose fetched
    loss the update depends on; a variable fetched together with its own
    update, which no cell does, would be read after it. *)
Definition session_run (vars feed : gmap string ndarray) (fs : list fetch)
  : result (list (option ndarray) * gmap string ndarray) :=
  vs <- fetch_values vars feed fs ;;
  vars' <- apply_fetches vars feed fs vars ;;
  Ok (vs, vars').

End TF.

(** ** The arithmetic of the tensors: float32

    The variables and the placeholders of the layer are declared with
    [dtype=tf.float32]: what is fed is converted to float32 and every
    operation of the graph takes and gives float32 numbers.  The operations
    are those of the Standard Library's specification of IEEE 754 arithmetic,
    at the parameters of binary32. *)

Module F32.
Import TF.

(** A float32 number: IEEE 754 binary32, 24 bits of precision, rounding to
    nearest, ties to even. *)
Definition float32 : Type := spec_float.
Definition prec : Z := 24.
Definition emax : Z := 128.

Definition fadd : float32 -> float32 -> float32 := SFadd prec emax.
Definition fsub : float32 -> float32 -> float32 := SFsub prec emax.
Definition fmul : float32 -> float32 -> float32 := SFmul prec emax.
Definition ltb : float32 -> float32 -> bool := SFltb.
Definition leb : float32 -> float32 -> bool := SFleb.

Definition zero : float32 := S754_zero false.
Definition nan : float32 := S754_nan.

(** The float32 nearest to an integer. *)
Definition of_Z (z : Z) : float32 := binary_normalize prec emax z 0 false.

(** The float32 nearest to a rational, as a Python number or a numpy array
    is converted when it becomes a float32 tensor. *)
Definition of_Q (q : Q) : float32 :=
  match Qnum q with
  | Z0 => zero
  | Zpos n => SFdiv prec emax (S754_finite false n 0) (S754_finite false (Qden q) 0)
  | Zneg n => SFdiv prec emax (S754_finite true n 0) (S754_finite false (Qden q) 0)
  end.

(** The number a float32 stands for, if it is one. *)
Definition value (x : float32) : option Q :=
  match x with
  | S754_zero _ => Some 0
  | S754_finite s m e => Some (inject_Z (cond_Zopp s (Zpos m)) * 2 ^ e)
  | S754_infinity _ | S754_nan => None
  end.

Record farray := FArray { fshape : list nat; fdata : list float32 }.

Definition of_ndarray (a : ndarray) : farray :=
  FArray (shape a) (map of_Q (data a)).

(** The sum of the entries in their order, every partial sum rounded. *)
Definition sum (l : list float32) : float32 :=
  match l with
  | [] => zero
  | x :: l => foldl fadd x l
  end.

Definition reshape (a : farray) (s : list nat) : result farray :=
  if Nat.eqb (numel s) (length (fdata a))
  then Ok (FArray s (fdata a))
  else Raise ShapeError.

Definition entry (d : list float32) (i : nat) : float32 := nth i d zero.

(** [tf.matmul]: every entry is the sum of the products of a row and a
    column, each product rounded to float32 before it is added. *)
Definition matmul (a b : farray) : result farray :=
  match fshape a, fshape b with
  | [m; k], [k'; n] =>
      if Nat.eqb k k' && Nat.eqb (length (fdata a)) (m * k)
         && Nat.eqb (length (fdata b)) (k * n)
      then Ok (FArray [m; n]
             (flat_map (fun i =>
                map (fun j =>
                  sum (map (fun l => fmul (entry (fdata a) (i * k + l))
                                          (entry (fdata b) (l * n + j)))
                           (seq 0 k)))
                    (seq 0 n))
                (seq 0 m)))
      else Raise ShapeError
  | _, _ => Raise ShapeError
  end.

Definition pointwise (f : float32 -> float32 -> float32) (a b : farray)
  : result farray :=
  if shape_eqb (fshape a) (fshape b)
  then Ok (FArray (fshape a) (zip_with f (fdata a) (fdata b)))
  else Raise ShapeError.

Definition add := pointwise fadd.
Definition sub := pointwise fsub.

Definition map_entries (f : float32 -> float32) (a : farray) : farray :=
  FArray (fshape a) (map f (fdata a)).

(** [tf.nn.relu]: [max(features, 0)]; a NaN stays a NaN. *)
Definition relu_scalar (x : float32) : float32 := if ltb x zero then zero else x.
Definition relu := map_entries relu_scalar.

(** [tf.square]. *)
Definition square := map_entries (fun x => fmul x x).

(** [tf.reduce_sum] over all axes. *)
Definition reduce_sum (a : farray) : farray := FArray [] [sum (fdata a)].

(** The value of a tensor of the graph in a session that holds float32
    variables, with float32 arrays fed.  A constant is given by its rational
    entries and enters as the nearest float32 numbers; the tensors of the
    layer and the loss hold none. *)
Fixpoint eval (vars feed : gmap string farray) (t : tensor) : result farray :=
  match t with
  | Const v => Ok (of_ndarray v)
  | Var x =>
      match vars !! x with
      | Some v => Ok v
      | None => Raise (Uninitialized x)
      end
  | Placeholder p shp =>
      match feed !! p with
      | Some v => if compatible shp (fshape v) then Ok v else Raise ShapeError
      | None => Raise (MissingFeed p)
      end
  | Reshape t s => v <- eval vars feed t ;; reshape v s
  | MatMul a b => va <- eval vars feed a ;; vb <- eval vars feed b ;; matmul va vb
  | Add a b => va <- eval vars feed a ;; vb <- eval vars feed b ;; add va vb
  | Sub a b => va <- eval vars feed a ;; vb <- eval vars feed b ;; sub va vb
  | Relu t => v <- eval vars feed t ;; Ok (relu v)
  | Square t => v <- eval vars feed t ;; Ok (square v)
  | ReduceSum t => v <- eval vars feed t ;; Ok (reduce_sum v)
  end.


(** A float32 that is not below zero: zero or more, or not a number. *)
Definition zero_or_more_or_nan (x : float32) : Prop :=
  leb zero x = true \/ x = nan.

(** The same by cases: a zero of either sign, a positive number, plus
    infinity, or NaN. *)
Definition plus_or_nan (x : float32) : bool :=
  match x with
  | S754_zero _ | S754_nan => true
  | S754_infinity s | S754_finite s _ _ => negb s
  end.

End F32.

(** ** The numpy calls of the notebook *)

Module NP.
Import TF.

(** [np.asarray] of a flat list. *)
Definition asarray (l : list Q) : ndarray := NDArray [length l] l.

(** [np.append(a, x)]: the entries of [a], flattened, followed by [x]. *)
Definition append (a : ndarray) (x : Q) : ndarray :=
  NDArray [length (data a ++ [x])] (data a ++ [x]).

(** [np.maximum(x, a)] with a scalar [x]. *)
Definition maximum (x : Q) (a : ndarray) : ndarray :=
  map_entries (Qmax x) a.

(** [a * l] with a Python list [l], which numpy turns into an array first. *)
Definition multiply (a : ndarray) (l : list Q) : result ndarray :=
  mul a (asarray l).

End NP.

(** ** The notebook as a program *)

Module Notebook.
Import TF.

(** What the cells print.  A printed tensor shows its name, shape and type; a
    line of the training loop is kept as its two values instead of the text
    [{:8d}\t{:1.2e}] produces from them. *)
Inductive output :=
| OutTensor (t : tensor)
| OutText (s : string)
| OutArrays (vs : list ndarray)
| OutIter (i : nat) (loss : Q).

(** The state the cells share: the numbers numpy's generator will draw, the
    variables registered in the default graph with their initial values, the
    variables of [session], and what was printed. *)
Record world := World {
  np_random : nat -> Q;
  global_variables : list (string * ndarray);
  session_vars : gmap string ndarray;
  stdout : list output
}.

(** An exception is raised by the framework (or numpy), or by Python itself
    when a result does not have the form the cell expects. *)
Inductive exn :=
| External (e : error)
| PythonError.

Inductive outcome (A : Type) :=
| Done (a : A) (w : world)
| Raised (e : exn).
Arguments Done {A} a w.
Arguments Raised {A} e.

Definition M (A : Type) := world -> outcome A.

Definition ret {A} (a : A) : M A := fun w => Done a w.

Definition bindM {A B} (m : M A) (k : A -> M B) : M B :=
  fun w => match m w with
           | Done a w' => k a w'
           | Raised e => Raised e
           end.

Notation "x <~ c ;; k" := (bindM c (fun x => k))
  (at level 100, c at next level, right associativity).
Notation "c ;;; k" := (bindM c (fun _ => k))
  (at level 100, right associativity).

(** A call into the framework: its error, if any, is the cell's. *)
Definition call {A} (r : result A) : M A :=
  fun w => match r with
           | Ok a => Done a w
           | Raise e => Raised (External e)
           end.

Definition print (o : output) : M unit :=
  fun w => Done tt (World (np_random w) (global_variables w) (session_vars w)
                          (stdout w ++ [o])).

(** [np.random.randn(d0, d1, ...)] *)
Definition np_random_randn (s : list nat) : M ndarray :=
  fun w =>
    let n := numel s in
    Done (NDArray s (map (np_random w) (seq 0 n)))
         (World (fun i => np_random w (n + i)%nat) (global_variables w)
                (session_vars w) (stdout w)).

(** [tf.Variable(initial_value, name=...)]; the cells give every variable a
    name of its own (a name already taken would be made unique). *)
Definition tf_Variable (initial_value : ndarray) (name : string) : M tensor :=
  fun w =>
    Done (Var name)
         (World (np_random w) (global_variables w ++ [(name, initial_value)])
                (session_vars w) (stdout w)).

(** [tf.global_variables_initializer()] *)
Definition tf_global_variables_initializer : M fetch :=
  fun w => Done (FetchInit (global_variables w)) w.

(** [session = tf.Session()] *)
Definition tf_Session : M unit :=
  fun w => Done tt (World (np_random w) (global_variables w) ∅ (stdout w)).

(** [session.run(fetches, feed_dict=feed)] *)
Definition run (fetches : list fetch) (feed : gmap string ndarray)
  : M (list (option ndarray)) :=
  fun w =>
    match session_run (session_vars w) feed fetches with
    | Ok (vs, vars') =>
        Done vs (World (np_random w) (global_variables w) vars' (stdout w))
    | Raise e => Raised (External e)
    end.

(** [for x in l: body x] *)
Fixpoint for_each {A} (l : list A) (body : A -> M unit) : M unit :=
  match l with
  | [] => ret tt
  | x :: l => body x ;;; for_each l body
  end.

(** [range(n)] *)
Definition range (n : nat) : list nat := seq 0 n.

(** ['{:8s}'.format(s)]: left-aligned in a field of width 8, for strings of
    one-byte characters as the cells format them. *)
Definition format_8s (s : string) : string :=
  s +:+ String.string_of_list_ascii (replicate (8 - String.length s) (Ascii.ascii_of_nat 32)).

(** *** The graph *)

Definition placeholder_input : tensor := Placeholder "my_input" [Some 2%nat].

Definition matrix_product (variable_matrix : tensor) : tensor :=
  Reshape (MatMul variable_matrix (Reshape placeholder_input [2; 1]%nat)) [3%nat].

Definition vector_sum (variable_matrix variable_vector : tensor) : tensor :=
  Add (matrix_product variable_matrix) variable_vector.

Definition relu_vector (variable_matrix variable_vector : tensor) : tensor :=
  Relu (vector_sum variable_matrix variable_vector).

Definition placeholder_output : tensor := Placeholder "my_output" [Some 3%nat].

Definition loss (relu_vector : tensor) : tensor :=
  ReduceSum (Square (Sub relu_vector placeholder_output)).

Definition batched_vectors : tensor := Placeholder "Placeholder" [None; Some 5%nat].

(** *** The cells *)

Definition constants_cells : M unit :=
  print (OutTensor (Const (NDArray [] [5]))) ;;;
  a <~ np_random_randn [3; 2]%nat ;;
  print (OutTensor (Const a)).

Definition variables_cell : M (tensor * tensor) :=
  a <~ np_random_randn [3; 2]%nat ;;
  variable_matrix <~ tf_Variable a "my_matrix" ;;
  print (OutTensor variable_matrix) ;;;
  a <~ np_random_randn [3%nat] ;;
  variable_vector <~ tf_Variable a "my_vector" ;;
  print (OutTensor variable_vector) ;;;
  ret (variable_matrix, variable_vector).

Definition layer_cell (variable_matrix variable_vector : tensor) : M tensor :=
  print (OutTensor placeholder_input) ;;;
  print (OutTensor (matrix_product variable_matrix)) ;;;
  print (OutTensor (vector_sum variable_matrix variable_vector)) ;;;
  print (OutTensor (relu_vector variable_matrix variable_vector)) ;;;
  ret (relu_vector variable_matrix variable_vector).

Definition keep_arrays (vs : list (option ndarray)) : list ndarray :=
  omap id vs.

Definition session_cell (relu_vector : tensor) : M unit :=
  tf_Session ;;;
  init <~ tf_global_variables_initializer ;;
  run [init] ∅ ;;;
  relu_vector_value <~ run [FetchTensor relu_vector]
                          {[ "my_input" := NP.asarray [1; 2] ]} ;;
  print (OutArrays (keep_arrays relu_vector_value)).

(** The target of one training sample. *)
Definition target (in_vec : ndarray) : result ndarray :=
  NP.multiply (NP.maximum 0 (NP.append in_vec 0)) [1; 0; 0].

Definition training_feed (in_vec out_vec : ndarray) : gmap string ndarray :=
  {[ "my_input" := in_vec; "my_output" := out_vec ]}.

Definition training_step (gradient_descent_step : fetch) (loss : tensor) (i : nat)
  : M unit :=
  in_vec <~ np_random_randn [2%nat] ;;
  out_vec <~ call (target in_vec) ;;
  r <~ run [gradient_descent_step; FetchTensor loss] (training_feed in_vec out_vec) ;;
  match r with
  | [_; Some (NDArray _ [loss_value])] => print (OutIter i loss_value)
  | _ => fun _ => Raised PythonError
  end.

Definition header : string :=
  format_8s "iter" +:+ tab +:+ format_8s "loss" +:+ newline
  +:+ format_8s "--------" +:+ tab +:+ format_8s "--------".

Definition training_cell (rate : Q) (iterations : nat) (relu_vector : tensor)
  : M unit :=
  let loss := loss relu_vector in
  let gradient_descent_step := FetchMinimize rate loss in
  print (OutText header) ;;;
  for_each (range iterations) (training_step gradient_descent_step loss).

Definition retrieval_cell (variable_matrix variable_vector : tensor) : M unit :=
  r <~ run [FetchTensor variable_matrix; FetchTensor variable_vector] ∅ ;;
  match r with
  | [Some matrix_value; Some vector_value] =>
      print (OutArrays [matrix_value]) ;;;
      print (OutArrays [vector_value])
  | _ => fun _ => Raised PythonError
  end.

Definition batch_cell : M unit :=
  print (OutTensor batched_vectors).

(** The notebook up to its last cell, which only builds and prints one more
    layer with [tf.layers.dense]. *)
Definition notebook (rate : Q) (iterations : nat) : M unit :=
  constants_cells ;;;
  vs <~ variables_cell ;;
  relu_vector <~ layer_cell vs.1 vs.2 ;;
  session_cell relu_vector ;;;
  training_cell rate iterations relu_vector ;;;
  retrieval_cell vs.1 vs.2 ;;;
  batch_cell.

(** The two variants. *)
Definition part_000 : M unit := notebook (1 # 10) 150.
Definition ipynb : M unit := notebook (7 # 100) 15.

End Notebook.

(** ** The code cells as syntax *)

Module Py.

Set Warnings "-register-all".

Inductive binop := OpAdd | OpSub | OpMul.

Inductive expr :=
| Name (x : string)
| Attr (e : expr) (a : string)                       (* e.a *)
| Call (f : expr) (args : list expr) (kwargs : list (string * expr))
| Int (z : Z)
| Float (q : Q)
| Str (s : string)
| NoneE
| ListE (es : list expr)
| TupleE (es : list expr)
| DictE (items : list (expr * expr))
| BinOp (op : binop) (l r : expr).

Inductive stmt :=
| Import (module asname : string)                    (* import module as asname *)
| Assign (targets : list string) (value : expr)      (* a, b = value *)
| ExprStmt (e : expr)
| For (target : string) (iter : expr) (body : list stmt)
| While (test : expr) (body : list stmt)
| If (test : expr) (body orelse : list stmt)
| With (context : expr) (body : list stmt)
| Try (body : list stmt) (handlers : list (list stmt))
| RaiseStmt (e : expr)
| Assert (test : expr)
| FunctionDef (name : string) (params : list string) (body : list stmt)
| ClassDef (name : string) (body : list stmt)
| Return (e : expr).

Definition cell := list stmt.

(** *** Traversals *)

(** An expression and everything below it, in source order. *)
Fixpoint subterms (e : expr) : list expr :=
  e ::
  match e with
  | Name _ | Int _ | Float _ | Str _ | NoneE => []
  | Attr e _ => subterms e
  | Call f args kwargs =>
      subterms f
      ++ (fix go (l : list expr) :=
            match l with [] => [] | a :: l => subterms a ++ go l end) args
      ++ (fix go (l : list (string * expr)) :=
            match l with [] => [] | (_, a) :: l => subterms a ++ go l end) kwargs
  | ListE es | TupleE es =>
      (fix go (l : list expr) :=
         match l with [] => [] | a :: l => subterms a ++ go l end) es
  | DictE items =>
      (fix go (l : list (expr * expr)) :=
         match l with
         | [] => []
         | (k, v) :: l => subterms k ++ subterms v ++ go l
         end) items
  | BinOp _ l r => subterms l ++ subterms r
  end.

(** A statement and the statements nested in it. *)
Fixpoint nested (s : stmt) : list stmt :=
  let block := fix go (l : list stmt) :=
    match l with [] => [] | s :: l => nested s ++ go l end in
  s ::
  match s with
  | Import _ _ | Assign _ _ | ExprStmt _ | RaiseStmt _ | Assert _ | Return _ => []
  | For _ _ body | While _ body | With _ body
  | FunctionDef _ _ body | ClassDef _ body => block body
  | If _ body orelse => block body ++ block orelse
  | Try body handlers =>
      block body
      ++ (fix go (l : list (list stmt)) :=
            match l with [] => [] | h :: l => block h ++ go l end) handlers
  end.

(** The expressions a statement holds itself (not those of nested ones). *)
Definition own_exprs (s : stmt) : list expr :=
  match s with
  | Assign _ e | ExprStmt e | For _ e _ | While e _ | If e _ _ | With e _
  | RaiseStmt e | Assert e | Return e => [e]
  | Import _ _ | Try _ _ | FunctionDef _ _ _ | ClassDef _ _ => []
  end.

Definition statements (cells : list cell) : list stmt :=
  flat_map nested (concat cells).

Definition expressions (cells : list cell) : list expr :=
  flat_map subterms (flat_map own_exprs (statements cells)).

(** [a.b.c] as the list of its names, for an expression that is one. *)
Fixpoint dotted (e : expr) : option (list string) :=
  match e with
  | Name x => Some [x]
  | Attr e a => p ← dotted e; Some (p ++ [a])
  | _ => None
  end.

(** The functions called anywhere in the cells. *)
Definition callees (cells : list cell) : list expr :=
  omap (fun e => match e with Call f _ _ => Some f | _ => None end)
       (expressions cells).

Definition called_paths (cells : list cell) : list (list string) :=
  omap dotted (callees cells).

(** The modules the cells import, as [(alias, module)]. *)
Definition imports (cells : list cell) : list (string * string) :=
  omap (fun s => match s with Import m a => Some (a, m) | _ => None end)
       (statements cells).

(** The [for] loops: target, iterable and body. *)
Definition for_loops (cells : list cell) : list (string * expr * list stmt) :=
  omap (fun s => match s with For x it body => Some (x, it, body) | _ => None end)
       (statements cells).

(** The calls of a method of an object: a dotted path whose root is not the
    alias of a module. *)
Definition calls_on_objects (cells : list cell) : list (list string) :=
  omap (fun p => match p with
                 | r :: _ :: _ =>
                     if bool_decide (r ∈ map fst (imports cells)) then None else Some p
                 | _ => None
                 end) (called_paths cells).

(** The binary operators with their operands. *)
Definition binary_operations (cells : list cell) : list (binop * expr * expr) :=
  omap (fun e => match e with BinOp op l r => Some (op, l, r) | _ => None end)
       (expressions cells).

(** The calls through the alias of a module: [tf.nn.relu] is a call into
    the module bound to [tf]. *)
Definition calls_into (alias : string) (cells : list cell) : list (list string) :=
  filter (fun p => head p = Some alias) (called_paths cells).

(** *** What the statements are

    The names bound to a value of an imported module: a module alias, or a
    name assigned from a call through such a name or from an operator
    applied to one ([session], [optimizer], the tensors and arrays). *)

Definition external_root (known : list string) (e : expr) : bool :=
  match dotted e with
  | Some (r :: _) => bool_decide (r ∈ known)
  | _ => false
  end.

(** A direct call into the framework or numpy. *)
Definition external_call (known : list string) (e : expr) : bool :=
  match e with
  | Call f _ _ => external_root known f
  | _ => false
  end.

(** An operator whose left operand, which selects the implementation, is
    such a call or a name bound to an external value. *)
Definition external_operator (known : list string) (e : expr) : bool :=
  match e with
  | BinOp _ (Name x) _ => bool_decide (x ∈ known)
  | BinOp _ l _ => external_call known l
  | _ => false
  end.

Fixpoint bind_names (known : list string) (s : stmt) : list string :=
  let block := fix go (known : list string) (l : list stmt) :=
    match l with [] => known | s :: l => go (bind_names known s) l end in
  match s with
  | Import _ a => known ++ [a]
  | Assign targets e =>
      if external_call known e || external_operator known e
      then known ++ targets else known
  | For _ _ body | While _ body | With _ body => block known body
  | If _ body orelse => block (block known body) orelse
  | _ => known
  end.

Definition external_names (cells : list cell) : list string :=
  foldl bind_names [] (concat cells).

Definition is_print (s : stmt) : bool :=
  match s with
  | ExprStmt (Call (Name "print") _ _) => true
  | _ => false
  end.

Definition is_direct_call (known : list string) (s : stmt) : bool :=
  match s with
  | Assign _ e | ExprStmt e => external_call known e
  | _ => false
  end.

Definition is_operator_statement (known : list string) (s : stmt) : bool :=
  match s with
  | Assign _ e => external_operator known e
  | _ => false
  end.

Definition is_import (s : stmt) : bool :=
  match s with Import _ _ => true | _ => false end.

Definition is_for_range (s : stmt) : bool :=
  match s with
  | For _ (Call (Name "range") [Int _] []) _ => true
  | _ => false
  end.

(** The functions a cell may call without leaving Python and the two
    libraries: [print], [range], [format] on a string literal, and the
    external ones. *)
Definition plain_callee (known : list string) (f : expr) : bool :=
  match f with
  | Name "print" | Name "range" => true
  | Attr (Str _) "format" => true
  | _ => external_root known f
  end.

Definition defines (s : stmt) : bool :=
  match s with
  | FunctionDef _ _ _ | ClassDef _ _ => true
  | _ => false
  end.

(** Statements that catch, raise or check. *)
Definition handles_errors (s : stmt) : bool :=
  match s with
  | Try _ _ | RaiseStmt _ | Assert _ | If _ _ _ => true
  | _ => false
  end.

(** *** Building the graph

    The graph-construction statements, read as the framework reads them:
    each name is bound to the node, optimizer or operation its right-hand
    side creates.  Values the graph does not contain (numpy arrays, fetched
    results, constants drawn at random) are opaque. *)

Inductive value :=
| VModule (m : string)
| VTensor (t : TF.tensor)
| VOptimizer (rate : Q)
| VMinimize (rate : Q) (loss : TF.tensor)
| VInit
| VSession
| VOpaque.

Definition kwarg (k : string) (kwargs : list (string * expr)) : option expr :=
  snd <$> find (fun p => String.eqb (fst p) k) kwargs.

(** A shape written as a list or tuple of sizes and [None]. *)
Definition dim (e : expr) : option (option nat) :=
  match e with
  | Int z => if (0 <=? z)%Z then Some (Some (Z.to_nat z)) else None
  | NoneE => Some None
  | _ => None
  end.

Definition static_dims (e : expr) : option TF.static_shape :=
  match e with
  | ListE es | TupleE es => mapM dim es
  | _ => None
  end.

Definition dims (e : expr) : option (list nat) :=
  s ← static_dims e; mapM id s.

(** The path of a call below a module: [tf.nn.relu] is [["nn"; "relu"]] of
    the module [tf] is bound to. *)
Definition module_path (env : gmap string value) (f : expr)
  : option (string * list string) :=
  match dotted f with
  | Some (r :: p) =>
      match env !! r with
      | Some (VModule m) => Some (m, p)
      | _ => None
      end
  | _ => None
  end.

Definition is_path (p : option (string * list string)) (q : list string) : bool :=
  bool_decide (p = Some ("tensorflow", q)).

Fixpoint build (env : gmap string value) (e : expr) : value :=
  match e with
  | Name x => default VOpaque (env !! x)
  | BinOp op l r =>
      match op, build env l, build env r with
      | OpAdd, VTensor a, VTensor b => VTensor (TF.Add a b)
      | OpSub, VTensor a, VTensor b => VTensor (TF.Sub a b)
      | _, _, _ => VOpaque
      end
  | Call f args kwargs =>
      let p := module_path env f in
      if is_path p ["placeholder"] then
        match args, kwarg "shape" kwargs ≫= static_dims with
        | [], Some shp =>
            match kwarg "name" kwargs with
            | Some (Str x) => VTensor (TF.Placeholder x shp)
            | None => VTensor (TF.Placeholder "Placeholder" shp)
            | _ => VOpaque
            end
        | _, _ => VOpaque
        end
      else if is_path p ["Variable"] then
        match kwarg "name" kwargs with
        | Some (Str x) => VTensor (TF.Var x)
        | _ => VOpaque
        end
      else if is_path p ["constant"] then
        match args with
        | [Float q] => VTensor (TF.Const (TF.NDArray [] [q]))
        | _ => VOpaque
        end
      else if is_path p ["reshape"] then
        match args with
        | [t; s] =>
            match build env t, dims s with
            | VTensor t, Some s => VTensor (TF.Reshape t s)
            | _, _ => VOpaque
            end
        | _ => VOpaque
        end
      else if is_path p ["matmul"] then
        match args with
        | [a; b] =>
            match build env a, build env b with
            | VTensor a, VTensor b => VTensor (TF.MatMul a b)
            | _, _ => VOpaque
            end
        | _ => VOpaque
        end
      else if is_path p ["nn"; "relu"] then
        match args with
        | [t] => match build env t with
                 | VTensor t => VTensor (TF.Relu t)
                 | _ => VOpaque
                 end
        | _ => VOpaque
        end
      else if is_path p ["square"] then
        match args with
        | [t] => match build env t with
                 | VTensor t => VTensor (TF.Square t)
                 | _ => VOpaque
                 end
        | _ => VOpaque
        end
      else if is_path p ["reduce_sum"] then
        match args with
        | [t] => match build env t with
                 | VTensor t => VTensor (TF.ReduceSum t)
                 | _ => VOpaque
                 end
        | _ => VOpaque
        end
      else if is_path p ["train"; "GradientDescentOptimizer"] then
        match args with
        | [Float q] => VOptimizer q
        | _ => VOpaque
        end
      else if is_path p ["global_variables_initializer"] then VInit
      else if is_path p ["Session"] then VSession
      else
        match f, args with
        | Attr (Name x) "minimize", [l] =>
            match env !! x, build env l with
            | Some (VOptimizer q), VTensor t => VMinimize q t
            | _, _ => VOpaque
            end
        | _, _ => VOpaque
        end
  | _ => VOpaque
  end.

(** One [session.run] call site: what it fetches and the keys of its
    [feed_dict]. *)
Record run_call := RunCall { fetches : list value; fed : list value }.

Definition run_site (env : gmap string value) (e : expr) : option run_call :=
  match e with
  | Call (Attr (Name s) "run") args kwargs =>
      match env !! s with
      | Some VSession =>
          Some (RunCall
                  match args with
                  | [ListE es] => map (build env) es
                  | [e] => [build env e]
                  | _ => []
                  end
                  match kwarg "feed_dict" kwargs with
                  | Some (DictE items) => map (fun kv => build env (fst kv)) items
                  | _ => []
                  end)
      | _ => None
      end
  | _ => None
  end.

Record graph_state := GraphState {
  env : gmap string value;
  runs : list run_call
}.

Definition log (e : expr) (st : graph_state) : graph_state :=
  match run_site (env st) e with
  | Some rc => GraphState (env st) (runs st ++ [rc])
  | None => st
  end.

Definition assign (targets : list string) (e : expr) (st : graph_state)
  : graph_state :=
  match targets with
  | [x] => GraphState (<[x := build (env st) e]> (env st)) (runs st)
  | _ => GraphState (foldr (fun x m => <[x := VOpaque]> m) (env st) targets) (runs st)
  end.

(** The body of a loop is read once: it is the call sites that are
    recorded, not the iterations. *)
Fixpoint exec (s : stmt) (st : graph_state) : graph_state :=
  let block := fix go (l : list stmt) (st : graph_state) :=
    match l with [] => st | s :: l => go l (exec s st) end in
  match s with
  | Import m a => GraphState (<[a := VModule m]> (env st)) (runs st)
  | Assign targets e => assign targets e (log e st)
  | ExprStmt e => log e st
  | For x _ body => block body (GraphState (<[x := VOpaque]> (env st)) (runs st))
  | While _ body | With _ body => block body st
  | If _ body orelse => block orelse (block body st)
  | _ => st
  end.

Definition graph (cells : list cell) : graph_state :=
  foldl (fun st s => exec s st) (GraphState ∅ []) (concat cells).

Definition value_placeholders (v : value) : gset string :=
  match v with
  | VTensor t => TF.placeholders t
  | VMinimize _ loss => TF.placeholders loss
  | _ => ∅
  end.

(** What a call needs fed and what it is fed. *)
Definition needed (rc : run_call) : gset string :=
  ⋃ (value_placeholders <$> fetches rc).

Definition fed_placeholders (rc : run_call) : option (gset string) :=
  list_to_set <$>
    mapM (fun v => match v with
                   | VTensor (TF.Placeholder p _) => Some p
                   | _ => None
                   end) (fed rc).

(** The calls of [tf.placeholder] with their arguments. *)
Definition placeholder_calls (cells : list cell)
  : list (list expr * list (string * expr)) :=
  omap (fun e => match e with
                 | Call f args kwargs =>
                     if is_path (module_path (env (graph cells)) f) ["placeholder"]
                     then Some (args, kwargs) else None
                 | _ => None
                 end) (expressions cells).

(** *** The two notebooks

    Each code cell is a list of statements; markdown cells and comments
    carry no code and are left out. *)

Definition tf (a : string) : expr := Attr (Name "tf") a.
Definition np (a : string) : expr := Attr (Name "np") a.
Definition print_ (e : expr) : stmt := ExprStmt (Call (Name "print") [e] []).

(** The notebook of [src/unnamed/part_000]. *)
Module Part000.

Definition imports_cell : cell :=
  [ Import "numpy" "np";
    Import "tensorflow" "tf" ].

Definition constant_scalar_cell : cell :=
  [ Assign ["constant_scalar"] (Call (tf "constant") [Float 5] []);
    print_ (Name "constant_scalar") ].

Definition constant_matrix_cell : cell :=
  [ Assign ["constant_matrix"]
      (Call (tf "constant")
         [Call (Attr (np "random") "randn") [Int 3; Int 2] []] []);
    print_ (Name "constant_matrix") ].

Definition variables_cell : cell :=
  [ Assign ["variable_matrix"]
      (Call (tf "Variable")
         [Call (Attr (np "random") "randn") [Int 3; Int 2] []]
         [("dtype", tf "float32"); ("name", Str "my_matrix")]);
    print_ (Name "variable_matrix");
    Assign ["variable_vector"]
      (Call (tf "Variable")
         [Call (Attr (np "random") "randn") [Int 3] []]
         [("dtype", tf "float32"); ("name", Str "my_vector")]);
    print_ (Name "variable_vector") ].

Definition layer_cell : cell :=
  [ Assign ["placeholder_input"]
      (Call (tf "placeholder") []
         [("dtype", tf "float32"); ("shape", TupleE [Int 2]);
          ("name", Str "my_input")]);
    print_ (Name "placeholder_input");
    Assign ["matrix_product"]
      (Call (tf "reshape")
         [Call (tf "matmul")
            [Name "variable_matrix";
             Call (tf "reshape") [Name "placeholder_input"; ListE [Int 2; Int 1]] []]
            [];
          ListE [Int 3]] []);
    print_ (Name "matrix_product");
    Assign ["vector_sum"]
      (BinOp OpAdd (Name "matrix_product") (Name "variable_vector"));
    print_ (Name "vector_sum");
    Assign ["relu_vector"]
      (Call (Attr (tf "nn") "relu") [Name "vector_sum"] []);
    print_ (Name "relu_vector") ].

Definition session_cell : cell :=
  [ Assign ["session"] (Call (tf "Session") [] []);
    ExprStmt
      (Call (Attr (Name "session") "run")
         [Call (tf "global_variables_initializer") [] []] []);
    Assign ["relu_vector_value"]
      (Call (Attr (Name "session") "run")
         [ListE [Name "relu_vector"]]
         [("feed_dict",
           DictE [(Name "placeholder_input",
                   Call (np "asarray") [ListE [Int 1; Int 2]] [])])]);
    print_ (Name "relu_vector_value") ].

Definition training_cell : cell :=
  [ Assign ["placeholder_output"]
      (Call (tf "placeholder") []
         [("dtype", tf "float32"); ("shape", ListE [Int 3]);
          ("name", Str "my_output")]);
    Assign ["loss"]
      (Call (tf "reduce_sum")
         [Call (tf "square")
            [BinOp OpSub (Name "relu_vector") (Name "placeholder_output")] []]
         []);
    Assign ["optimizer"]
      (Call (Attr (tf "train") "GradientDescentOptimizer") [Float (1 # 10)] []);
    Assign ["gradient_descent_step"]
      (Call (Attr (Name "optimizer") "minimize") [Name "loss"] []);
    print_
      (Call (Attr (Str ("{:8s}" +:+ tab +:+ "{:8s}" +:+ newline
                        +:+ "{:8s}" +:+ tab +:+ "{:8s}")) "format")
         [Str "iter"; Str "loss"; Str "--------"; Str "--------"] []);
    For "i" (Call (Name "range") [Int 150] [])
      [ Assign ["in_vec"] (Call (Attr (np "random") "randn") [Int 2] []);
        Assign ["out_vec"]
          (BinOp OpMul
             (Call (np "maximum")
                [Int 0; Call (np "append") [Name "in_vec"; Int 0] []] [])
             (ListE [Int 1; Int 0; Int 0]));
        Assign ["_"; "loss_value"]
          (Call (Attr (Name "session") "run")
             [ListE [Name "gradient_descent_step"; Name "loss"]]
             [("feed_dict",
               DictE [(Name "placeholder_input", Name "in_vec");
                      (Name "placeholder_output", Name "out_vec")])]);
        print_
          (Call (Attr (Str ("{:8d}" +:+ tab +:+ "{:1.2e}")) "format")
             [Name "i"; Name "loss_value"] []) ] ].

Definition retrieval_cell : cell :=
  [ Assign ["matrix_value"; "vector_value"]
      (Call (Attr (Name "session") "run")
         [ListE [Name "variable_matrix"; Name "variable_vector"]] []);
    print_ (Name "matrix_value");
    print_ (Name "vector_value") ].

Definition batch_cell : cell :=
  [ Assign ["batched_vectors"]
      (Call (tf "placeholder") []
         [("dtype", tf "float32"); ("shape", ListE [NoneE; Int 5])]);
    print_ (Name "batched_vectors") ].

Definition dense_cell : cell :=
  [ Assign ["alternative_relu_vector"]
      (Call (Attr (tf "layers") "dense")
         [Call (tf "reshape") [Name "placeholder_input"; ListE [Int (-1); Int 2]] [];
          Int 3]
         [("activation", Attr (tf "nn") "relu")]);
    print_ (Name "alternative_relu_vector") ].

Definition empty_cell : cell := [].

Definition cells : list cell :=
  [ imports_cell; constant_scalar_cell; constant_matrix_cell; variables_cell;
    layer_cell; session_cell; training_cell; retrieval_cell; batch_cell;
    dense_cell; empty_cell ].

End Part000.

(** The notebook [Part-III-tensorflow-introduction.ipynb]. *)
Module Ipynb.

Definition imports_cell : cell :=
  [ Import "numpy" "np";
    Import "tensorflow" "tf" ].

Definition constant_scalar_cell : cell :=
  [ Assign ["constant_scalar"] (Call (tf "constant") [Float 5] []);
    print_ (Name "constant_scalar") ].

Definition constant_matrix_cell : cell :=
  [ Assign ["constant_matrix"]
      (Call (tf "constant")
         [Call (Attr (np "random") "randn") [Int 3; Int 2] []] []);
    print_ (Name "constant_matrix") ].

Definition variables_cell : cell :=
  [ Assign ["variable_matrix"]
      (Call (tf "Variable")
         [Call (Attr (np "random") "randn") [Int 3; Int 2] []]
         [("dtype", tf "float32"); ("name", Str "my_matrix")]);
    print_ (Name "variable_matrix");
    Assign ["variable_vector"]
      (Call (tf "Variable")
         [Call (Attr (np "random") "randn") [Int 3] []]
         [("dtype", tf "float32"); ("name", Str "my_vector")]);
    print_ (Name "variable_vector") ].

Definition layer_cell : cell :=
  [ Assign ["placeholder_input"]
      (Call (tf "placeholder") []
         [("dtype", tf "float32"); ("shape", TupleE [Int 2]);
          ("name", Str "my_input")]);
    print_ (Name "placeholder_input");
    Assign ["matrix_product"]
      (Call (tf "reshape")
         [Call (tf "matmul")
            [Name "variable_matrix";
             Call (tf "reshape") [Name "placeholder_input"; ListE [Int 2; Int 1]] []]
            [];
          ListE [Int 3]] []);
    print_ (Name "matrix_product");
    Assign ["vector_sum"]
      (BinOp OpAdd (Name "matrix_product") (Name "variable_vector"));
    print_ (Name "vector_sum");
    Assign ["relu_vector"]
      (Call (Attr (tf "nn") "relu") [Name "vector_sum"] []);
    print_ (Name "relu_vector") ].

Definition session_cell : cell :=
  [ Assign ["session"] (Call (tf "Session") [] []);
    ExprStmt
      (Call (Attr (Name "session") "run")
         [Call (tf "global_variables_initializer") [] []] []);
    Assign ["relu_vector_value"]
      (Call (Attr (Name "session") "run")
         [ListE [Name "relu_vector"]]
         [("feed_dict",
           DictE [(Name "placeholder_input",
                   Call (np "asarray") [ListE [Int 1; Int 2]] [])])]);
    print_ (Name "relu_vector_value") ].

Definition training_cell : cell :=
  [ Assign ["placeholder_output"]
      (Call (tf "placeholder") []
         [("dtype", tf "float32"); ("shape", ListE [Int 3]);
          ("name", Str "my_output")]);
    Assign ["loss"]
      (Call (tf "reduce_sum")
         [Call (tf "square")
            [BinOp OpSub (Name "relu_vector") (Name "placeholder_output")] []]
         []);
    Assign ["optimizer"]
      (Call (Attr (tf "train") "GradientDescentOptimizer") [Float (7 # 100)] []);
    Assign ["gradient_descent_step"]
      (Call (Attr (Name "optimizer") "minimize") [Name "loss"] []);
    print_
      (Call (Attr (Str ("{:8s}" +:+ tab +:+ "{:8s}" +:+ newline
                        +:+ "{:8s}" +:+ tab +:+ "{:8s}")) "format")
         [Str "iter"; Str "loss"; Str "--------"; Str "--------"] []);
    For "i" (Call (Name "range") [Int 15] [])
      [ Assign ["in_vec"] (Call (Attr (np "random") "randn") [Int 2] []);
        Assign ["out_vec"]
          (BinOp OpMul
             (Call (np "maximum")
                [Int 0; Call (np "append") [Name "in_vec"; Int 0] []] [])
             (ListE [Int 1; Int 0; Int 0]));
        Assign ["_"; "loss_value"]
          (Call (Attr (Name "session") "run")
             [ListE [Name "gradient_descent_step"; Name "loss"]]
             [("feed_dict",
               DictE [(Name "placeholder_input", Name "in_vec");
                      (Name "placeholder_output", Name "out_vec")])]);
        print_
          (Call (Attr (Str ("{:8d}" +:+ tab +:+ "{:1.2e}")) "format")
             [Name "i"; Name "loss_value"] []) ] ].

Definition retrieval_cell : cell :=
  [ Assign ["matrix_value"; "vector_value"]
      (Call (Attr (Name "session") "run")
         [ListE [Name "variable_matrix"; Name "variable_vector"]] []);
    print_ (Name "matrix_value");
    print_ (Name "vector_value") ].

Definition batch_cell : cell :=
  [ Assign ["batched_vectors"]
      (Call (tf "placeholder") []
         [("dtype", tf "float32"); ("shape", ListE [NoneE; Int 5])]);
    print_ (Name "batched_vectors") ].

Definition dense_cell : cell :=
  [ Assign ["alternative_relu_vector"]
      (Call (Attr (tf "layers") "dense")
         [Call (tf "reshape") [Name "placeholder_input"; ListE [Int (-1); Int 2]] [];
          Int 3]
         [("activation", Attr (tf "nn") "relu")]);
    print_ (Name "alternative_relu_vector") ].

Definition empty_cell : cell := [].

Definition cells : list cell :=
  [ imports_cell; constant_scalar_cell; constant_matrix_cell; variables_cell;
    layer_cell; session_cell; training_cell; retrieval_cell; batch_cell;
    dense_cell; empty_cell ].

End Ipynb.

End Py.

(** ** Notions used in the statements *)

Module Spec.
Import TF Notebook.

(** An array of a given shape with as many entries as the shape has. *)
Definition is_array (s : list nat) (a : ndarray) : Prop :=
  shape a = s /\ length (data a) = numel s.

(** The session holds a 3x2 matrix and a 3-vector for the two variables of
    the layer. *)
Definition layer_vars (vars : gmap string ndarray) : Prop :=
  exists W b,
    vars !! "my_matrix" = Some W /\ is_array [3; 2]%nat W
    /\ vars !! "my_vector" = Some b /\ is_array [3%nat] b.

(** The lines of the training loop among what was printed. *)
Definition iterations_printed (out : list output) : list (nat * Q) :=
  omap (fun o => match o with OutIter i l => Some (i, l) | _ => None end) out.

(** A chain of steps, one for each element of a list, in the order of the
    list. *)
Inductive steps {A} (R : A -> world -> world -> Prop)
  : list A -> world -> world -> Prop :=
| steps_done w : steps R [] w w
| steps_next x l w w1 w2 :
    R x w w1 -> steps R l w1 w2 -> steps R (x :: l) w w2.

(** The sample the next iteration of the training loop draws. *)
Definition sample (w : world) : ndarray :=
  NDArray [2%nat] [np_random w 0%nat; np_random w 1%nat].

(** Iteration [i] of the training loop takes [w] to [w']: one
    gradient-descent step on the sample and its target, and one printed line
    with [i] and the loss of that sample. *)
Definition descent_iteration (rate : Q) (loss : tensor) (i : nat) (w w' : world)
  : Prop :=
  exists out_vec l,
    target (sample w) = Ok out_vec
    /\ session_run (session_vars w) (training_feed (sample w) out_vec)
         [FetchMinimize rate loss; FetchTensor loss]
       = Ok ([None; Some (NDArray [] [l])], session_vars w')
    /\ stdout w' = stdout w ++ [OutIter i l].

(** The primitives the specification enumerates: constant, variable and
    placeholder tensors, matrix multiplication, reshape, ReLU, an optimizer
    and a session, under the names the notebooks call them by. *)
Definition enumerated_primitives : list (list string) :=
  [ ["tf"; "constant"]; ["tf"; "Variable"]; ["tf"; "placeholder"];
    ["tf"; "matmul"]; ["tf"; "reshape"]; ["tf"; "nn"; "relu"];
    ["tf"; "train"; "GradientDescentOptimizer"]; ["tf"; "Session"] ].

(** The framework functions the notebooks call besides those. *)
Definition further_primitives : list (list string) :=
  [ ["tf"; "global_variables_initializer"]; ["tf"; "reduce_sum"];
    ["tf"; "square"]; ["tf"; "layers"; "dense"] ].

(** A program whose only exceptions are those of the framework. *)
Definition framework_only {A} (m : M A) : Prop :=
  forall w e, m w = Raised e -> exists err, e = External err.

(** A notebook that has just been opened: nothing in the graph, no session,
    nothing printed; [draws] are the numbers numpy's generator will give. *)
Definition fresh (draws : nat -> Q) : world := World draws [] ∅ [].

(** The variables right after [tf.global_variables_initializer()] has run:
    the first six draws go to the constant matrix, the next six to
    [variable_matrix] and the next three to [variable_vector]. *)
Definition initial_vars (draws : nat -> Q) : gmap string ndarray :=
  <["my_matrix" := NDArray [3; 2]%nat (map draws (seq 6 6))]>
    (<["my_vector" := NDArray [3%nat] (map draws (seq 12 3))]> ∅).

(** The graph of the notebooks, with the two variables as they are named. *)
Definition the_relu_vector : tensor := relu_vector (Var "my_matrix") (Var "my_vector").
Definition the_loss : tensor := loss the_relu_vector.

End Spec.

(** ** Further notions: dependencies, well-formed arrays, equal entries *)

Module Notions.
Import TF Notebook.

(** The variables a tensor depends on. *)
Fixpoint variables (t : tensor) : gset string :=
  match t with
  | Const _ | Placeholder _ _ => ∅
  | Var x => {[ x ]}
  | Reshape t _ | Relu t | Square t | ReduceSum t => variables t
  | MatMul a b | Add a b | Sub a b => variables a ∪ variables b
  end.

(** An array has as many entries as its shape says. *)
Definition well_formed (a : ndarray) : Prop :=
  length (data a) = numel (shape a).

Fixpoint constants_well_formed (t : tensor) : Prop :=
  match t with
  | Const v => well_formed v
  | Var _ | Placeholder _ _ => True
  | Reshape t _ | Relu t | Square t | ReduceSum t => constants_well_formed t
  | MatMul a b | Add a b | Sub a b =>
      constants_well_formed a /\ constants_well_formed b
  end.

Definition all_well_formed (m : gmap string ndarray) : Prop :=
  forall x v, m !! x = Some v -> well_formed v.


(** The gradient of the loss with respect to the sum of one unit: twice the
    residual where the unit is active, zero where it is not. *)
Definition unit_gradient (w1 w2 b x1 x2 y : Q) : Q :=
  1 * (2 * (relu_scalar (w1 * x1 + (w2 * x2 + 0) + b) - y))
  * (if Qlt_le_dec 0 (w1 * x1 + (w2 * x2 + 0) + b) then 1 else 0).

(** Gradients that have the shapes of the variables they belong to. *)
Definition fits (vars acc : gmap string ndarray) : Prop :=
  forall x g, acc !! x = Some g ->
    exists u, vars !! x = Some u /\ shape g = shape u /\ well_formed g.

(** The placeholders of a graph as they are declared, by name: [t] uses
    its placeholders with the shapes [decl] gives them. *)
Fixpoint declares (decl : gmap string static_shape) (t : tensor) : Prop :=
  match t with
  | Placeholder p shp => decl !! p = Some shp
  | Const _ | Var _ => True
  | Reshape t _ | Relu t | Square t | ReduceSum t => declares decl t
  | MatMul a b | Add a b | Sub a b => declares decl a /\ declares decl b
  end.

(** The check [session.run] makes on a [feed_dict] before it evaluates
    anything: every fed array goes to a placeholder of the graph and has a
    shape its declaration admits. *)
Definition accepted (decl : gmap string static_shape) (feed : gmap string ndarray)
  : Prop :=
  forall p v, feed !! p = Some v ->
    exists shp, decl !! p = Some shp /\ compatible shp (shape v) = true.

(** Reading the variables back: the initializer is built and run, then one
    variable is fetched. *)
Definition initialize_and_fetch (x : string) : M (list (option ndarray)) :=
  init <~ tf_global_variables_initializer ;;
  run [init] ∅ ;;;
  run [FetchTensor (Var x)] ∅.

(** The cells before the training cell, as one program that returns the
    layer. *)
Definition before_training : M tensor :=
  constants_cells ;;;
  vs <~ variables_cell ;;
  relu_vector <~ layer_cell vs.1 vs.2 ;;
  session_cell relu_vector ;;;
  ret relu_vector.

End Notions.

(** ** The layer of the last cell: [tf.layers.dense] *)

Module Dense.
Import TF.

(** The shape [tf.reshape] takes a request for: sizes, at most one of which
    is [-1] and stands for whatever makes the number of entries [n]; it
    cannot be inferred next to a size 0. *)
Definition known_size (s : list Z) : Z :=
  foldr (fun d acc => if (d =? -1)%Z then acc else (d * acc)%Z) 1%Z s.

Definition infer_shape (n : nat) (s : list Z) : option (list nat) :=
  if forallb (fun d => (-1 <=? d)%Z) s
     && (length (filter (fun d => d = (-1)%Z) s) <=? 1)%nat
  then
    let k := Z.to_nat (known_size s) in
    if existsb (fun d => (d =? -1)%Z) s && Nat.eqb k 0
    then None
    else Some (map (fun d => if (d =? -1)%Z then (n / k)%nat else Z.to_nat d) s)
  else None.

Definition reshape_to (a : ndarray) (s : list Z) : result ndarray :=
  match infer_shape (length (data a)) s with
  | Some s' => reshape a s'
  | None => Raise ShapeError
  end.

(** Adding a bias vector to every row of a matrix. *)
Definition bias_add (m b : ndarray) : result ndarray :=
  match shape m, shape b with
  | [r; c], [c'] =>
      if Nat.eqb c c' && Nat.eqb (length (data m)) (r * c)
         && Nat.eqb (length (data b)) c
      then Ok (NDArray [r; c]
                 (flat_map (fun i =>
                    map (fun j => entry (data m) (i * c + j) + entry (data b) j)
                        (seq 0 c))
                    (seq 0 r)))
      else Raise ShapeError
  | _, _ => Raise ShapeError
  end.

(** [tf.layers.dense(inputs, units, activation=tf.nn.relu)] with the values
    of the kernel and the bias the layer creates: a kernel of shape
    [[d, units]] for inputs of shape [[n, d]], a bias of shape [[units]]. *)
Definition dense (inputs : ndarray) (units : nat) (kernel bias : ndarray)
  : result ndarray :=
  match shape inputs, shape kernel, shape bias with
  | [_; d], [d'; u], [u'] =>
      if Nat.eqb d d' && Nat.eqb u units && Nat.eqb u' units
      then m <- matmul inputs kernel ;;
           s <- bias_add m bias ;;
           Ok (relu s)
      else Raise ShapeError
  | _, _, _ => Raise ShapeError
  end.

End Dense.

(** ** Names: what is bound when a statement runs *)

Module Scope.
Import Py.

(** The names Python provides by itself and the cells use. *)
Definition builtins : list string := ["print"; "range"].

(** The names an expression reads. *)
Definition reads (e : expr) : list string :=
  omap (fun e => match e with Name x => Some x | _ => None end) (subterms e).

(** The names bound so far and the names read while unbound, after a
    statement: the right-hand side is read before the targets are bound, a
    loop binds its target before its body runs. *)
Fixpoint scan (s : stmt) (st : list string * list string)
  : list string * list string :=
  let block := fix go (l : list stmt) (st : list string * list string) :=
    match l with [] => st | s :: l => go l (scan s st) end in
  let read e (st : list string * list string) :=
    (st.1, st.2 ++ List.filter (fun x => negb (bool_decide (x ∈ st.1))) (reads e)) in
  let bind xs (st : list string * list string) := (st.1 ++ xs, st.2) in
  match s with
  | Import _ a => bind [a] st
  | Assign targets e => bind targets (read e st)
  | ExprStmt e | RaiseStmt e | Assert e | Return e => read e st
  | For x it body => block body (bind [x] (read it st))
  | While e body | With e body => block body (read e st)
  | If e body orelse => block orelse (block body (read e st))
  | Try body handlers =>
      (fix go (l : list (list stmt)) (st : list string * list string) :=
         match l with [] => st | h :: l => go l (block h st) end)
        handlers (block body st)
  | FunctionDef f _ _ | ClassDef f _ => bind [f] st
  end.

(** The names read before they are bound when the cells run top to
    bottom. *)
Definition unbound_reads (cells : list cell) : list string :=
  (foldl (fun st s => scan s st) (builtins, []) (concat cells)).2.

(** The targets of the assignments, imports and loops, in order. *)
Definition targets_of (s : stmt) : list string :=
  match s with
  | Import _ a => [a]
  | Assign targets _ => targets
  | For x _ _ => [x]
  | _ => []
  end.

Definition bound_names (cells : list cell) : list string :=
  flat_map targets_of (statements cells).

End Scope.

(** ** A state and feeds to try the statements on *)

Module Samples.
Import TF Notebook.

(** Unit 1 is active on the input (its sum is 3), units 2 and 3 are not
    (their sums are 0 and -9/2). *)
Definition vars : gmap string ndarray :=
  {[ "my_matrix" := NDArray [3; 2]%nat [1; 2; -1; 0; 3; -4];
     "my_vector" := NDArray [3%nat] [-2; 1; 1 # 2] ]}.

Definition feed : gmap string ndarray :=
  {[ "my_input" := NDArray [2%nat] [1; 2];
     "my_output" := NDArray [3%nat] [1; 0; 0] ]}.


(** A session that also holds the variables of another layer. *)
Definition vars_and_more : gmap string ndarray :=
  <["dense/bias" := NDArray [3%nat] [0; 0; 0]]> vars.

(** The placeholders of the notebooks as they are declared. *)
Definition declared : gmap string static_shape :=
  {[ "my_input" := [Some 2%nat];
     "my_output" := [Some 3%nat];
     "Placeholder" := [None; Some 5%nat] ]}.

Definition a_world : world :=
  World (fun i => inject_Z (Z.of_nat i))
        [("my_matrix", NDArray [3; 2]%nat [1; 2; -1; 0; 3; -4]);
         ("my_vector", NDArray [3%nat] [-2; 1; 1 # 2])]
        vars [].

End Samples.

(** * Properties *)

Import TF Notebook Spec.

(** The equations of [eval]. *)
Lemma eval_Reshape vars feed t s :
  eval vars feed (Reshape t s) = (v <- eval vars feed t ;; reshape v s).
Proof. reflexivity. Qed.

Lemma eval_Add vars feed a b :
  eval vars feed (Add a b)
  = (va <- eval vars feed a ;; vb <- eval vars feed b ;; add va vb).
Proof. reflexivity. Qed.

Lemma eval_Sub vars feed a b :
  eval vars feed (Sub a b)
  = (va <- eval vars feed a ;; vb <- eval vars feed b ;; sub va vb).
Proof. reflexivity. Qed.

Lemma eval_Relu vars feed t :
  eval vars feed (Relu t) = (v <- eval vars feed t ;; Ok (relu v)).
Proof. reflexivity. Qed.

Lemma eval_Square vars feed t :
  eval vars feed (Square t) = (v <- eval vars feed t ;; Ok (square v)).
Proof. reflexivity. Qed.

Lemma eval_ReduceSum vars feed t :
  eval vars feed (ReduceSum t) = (v <- eval vars feed t ;; Ok (reduce_sum v)).
Proof. reflexivity. Qed.

Section Layer.

Variables vars feed : gmap string ndarray.
Variables w11 w12 w21 w22 w31 w32 b1 b2 b3 x1 x2 : Q.

Hypothesis matrix_value :
  vars !! "my_matrix" = Some (NDArray [3; 2]%nat [w11; w12; w21; w22; w31; w32]).
Hypothesis vector_value :
  vars !! "my_vector" = Some (NDArray [3%nat] [b1; b2; b3]).
Hypothesis input_value :
  feed !! "my_input" = Some (NDArray [2%nat] [x1; x2]).

Lemma eval_matmul :
  eval vars feed (MatMul (Var "my_matrix") (Reshape placeholder_input [2; 1]%nat))
  = Ok (NDArray [3; 1]%nat
          [w11 * x1 + (w12 * x2 + 0); w21 * x1 + (w22 * x2 + 0);
           w31 * x1 + (w32 * x2 + 0)]).
Proof.
  cbn [placeholder_input eval bind].
  rewrite matrix_value, input_value. reflexivity.
Qed.

Lemma eval_matrix_product :
  eval vars feed (matrix_product (Var "my_matrix"))
  = Ok (NDArray [3%nat]
          [w11 * x1 + (w12 * x2 + 0); w21 * x1 + (w22 * x2 + 0);
           w31 * x1 + (w32 * x2 + 0)]).
Proof.
  unfold matrix_product. rewrite eval_Reshape, eval_matmul. reflexivity.
Qed.

Lemma eval_relu_vector :
  eval vars feed the_relu_vector
  = Ok (NDArray [3%nat]
          [relu_scalar (w11 * x1 + (w12 * x2 + 0) + b1);
           relu_scalar (w21 * x1 + (w22 * x2 + 0) + b2);
           relu_scalar (w31 * x1 + (w32 * x2 + 0) + b3)]).
Proof.
  unfold the_relu_vector, relu_vector, vector_sum.
  rewrite eval_Relu, eval_Add, eval_matrix_product.
  cbn [bind eval]. rewrite vector_value. reflexivity.
Qed.

End Layer.

(** The graph read off the source of either notebook is the one of
    [Notebook]. *)
Lemma graph_relu_vector :
  Py.env (Py.graph Py.Part000.cells) !! "relu_vector" = Some (Py.VTensor the_relu_vector)
  /\ Py.env (Py.graph Py.Ipynb.cells) !! "relu_vector" = Some (Py.VTensor the_relu_vector).
Proof. split; vm_compute; reflexivity. Qed.

(** *** The reshape pair *)

Lemma reshape_data a s b : reshape a s = Ok b -> data b = data a /\ shape b = s.
Proof.
  unfold reshape. destruct (Nat.eqb _ _); intros E; inversion E. split; reflexivity.
Qed.


(** *** The layer in float32 *)


Lemma f32_eval_Relu vars feed t :
  F32.eval vars feed (Relu t) = (v <- F32.eval vars feed t ;; Ok (F32.relu v)).
Proof. reflexivity. Qed.

Lemma f32_eval_Square vars feed t :
  F32.eval vars feed (Square t) = (v <- F32.eval vars feed t ;; Ok (F32.square v)).
Proof. reflexivity. Qed.

Lemma f32_eval_ReduceSum vars feed t :
  F32.eval vars feed (ReduceSum t) = (v <- F32.eval vars feed t ;; Ok (F32.reduce_sum v)).
Proof. reflexivity. Qed.

Section Float32Layer.

Variables vars feed : gmap string F32.farray.
Variables w11 w12 w21 w22 w31 w32 b1 b2 b3 x1 x2 : F32.float32.

Hypothesis matrix_value :
  vars !! "my_matrix" = Some (F32.FArray [3; 2]%nat [w11; w12; w21; w22; w31; w32]).
Hypothesis vector_value :
  vars !! "my_vector" = Some (F32.FArray [3%nat] [b1; b2; b3]).
Hypothesis input_value :
  feed !! "my_input" = Some (F32.FArray [2%nat] [x1; x2]).




End Float32Layer.

(** ** Signs *)

(** The results of rounding carry the sign they are given. *)
Lemma binary_round_aux_sign (sx : bool) (mx ex : Z) (lx : location) :
  match binary_round_aux F32.prec F32.emax sx mx ex lx with
  | S754_zero s | S754_infinity s | S754_finite s _ _ => s = sx
  | S754_nan => True
  end.
Proof.
  unfold binary_round_aux.
  destruct (shr_fexp _ _ _ _ _) as [mrs' e'].
  destruct (shr_fexp _ _ _ _ _) as [mrs'' e''].
  destruct (shr_m mrs'') as [| m | m]; [reflexivity | | exact I].
  destruct (Z.leb _ _); reflexivity.
Qed.

Lemma binary_round_sign (sx : bool) (mx : positive) (ex : Z) :
  match binary_round F32.prec F32.emax sx mx ex with
  | S754_zero s | S754_infinity s | S754_finite s _ _ => s = sx
  | S754_nan => True
  end.
Proof.
  unfold binary_round. destruct (shl_align _ _ _) as [mz ez].
  apply binary_round_aux_sign.
Qed.

Lemma plus_or_nan_spec (x : F32.float32) :
  F32.plus_or_nan x = true <-> F32.zero_or_more_or_nan x.
Proof.
  unfold F32.zero_or_more_or_nan.
  destruct x as [s | [|] | | [|] m e]; cbn; split; intros H;
    try reflexivity; try discriminate H; auto;
    destruct H as [H | H]; discriminate H.
Qed.

Lemma relu_scalar_plus (x : F32.float32) : F32.plus_or_nan (F32.relu_scalar x) = true.
Proof. destruct x as [s | [|] | | [|] m e]; reflexivity. Qed.

Lemma fmul_square_plus (x : F32.float32) : F32.plus_or_nan (F32.fmul x x) = true.
Proof.
  destruct x as [s | s | | s m e]; unfold F32.fmul, SFmul.
  - reflexivity.
  - cbn. rewrite xorb_nilpotent. reflexivity.
  - reflexivity.
  - pose proof (binary_round_aux_sign (xorb s s) (Z.pos (m * m)) (e + e) loc_Exact) as H.
    destruct (binary_round_aux _ _ _ _ _ _) as [s' | s' | | s' m' e'];
      cbn; try reflexivity; subst s'; rewrite xorb_nilpotent; reflexivity.
Qed.

Lemma fadd_plus (x y : F32.float32) :
  F32.plus_or_nan x = true -> F32.plus_or_nan y = true ->
  F32.plus_or_nan (F32.fadd x y) = true.
Proof.
  destruct x as [sx | [|] | | [|] mx ex]; try discriminate;
    destruct y as [sy | [|] | | [|] my ey]; try discriminate; intros _ _;
    try reflexivity.
  - destruct sx, sy; reflexivity.
  - unfold F32.fadd, SFadd.
    destruct (shl_align mx ex (Z.min ex ey)) as [mx' ex'].
    destruct (shl_align my ey (Z.min ex ey)) as [my' ey'].
    cbn [fst cond_Zopp].
    change (Z.pos mx' + Z.pos my')%Z with (Z.pos (mx' + my')).
    cbn [binary_normalize].
    pose proof (binary_round_sign false (mx' + my') (Z.min ex ey)) as H.
    destruct (binary_round _ _ _ _ _) as [s' | s' | | s' m' e'];
      cbn; try reflexivity; subst s'; reflexivity.
Qed.

Lemma sum_plus (l : list F32.float32) :
  Forall (fun x => F32.plus_or_nan x = true) l -> F32.plus_or_nan (F32.sum l) = true.
Proof.
  destruct 1 as [| x l Hx Hl]; [reflexivity |]. cbn [F32.sum].
  revert x Hx. induction Hl as [| y l Hy _ IH]; intros x Hx; cbn [foldl].
  - exact Hx.
  - apply IH, fadd_plus; assumption.
Qed.








(** C10 as it is written fails on float32: with first row (2, -2) and the
    input (2^127, 2^127), all float32 numbers, the two products overflow to
    plus and minus infinity and their sum is not a number; the first
    component of [relu_vector] and the loss are NaN, of which [>= 0] is
    false. *)
Lemma relu_vector_and_loss_can_be_nan :
  F32.eval
    {[ "my_matrix" := F32.FArray [3; 2]%nat (map F32.of_Z [2; -2; 0; 0; 0; 0]%Z);
       "my_vector" := F32.FArray [3%nat] (map F32.of_Z [0; 0; 0]%Z) ]}
    {[ "my_input" := F32.FArray [2%nat] (map F32.of_Z [2 ^ 127; 2 ^ 127]%Z);
       "my_output" := F32.FArray [3%nat] (map F32.of_Z [0; 0; 0]%Z) ]}
    the_relu_vector
  = Ok (F32.FArray [3%nat] [F32.nan; F32.zero; F32.zero])
  /\ F32.eval
       {[ "my_matrix" := F32.FArray [3; 2]%nat (map F32.of_Z [2; -2; 0; 0; 0; 0]%Z);
          "my_vector" := F32.FArray [3%nat] (map F32.of_Z [0; 0; 0]%Z) ]}
       {[ "my_input" := F32.FArray [2%nat] (map F32.of_Z [2 ^ 127; 2 ^ 127]%Z);
          "my_output" := F32.FArray [3%nat] (map F32.of_Z [0; 0; 0]%Z) ]}
       the_loss
     = Ok (F32.FArray [] [F32.nan])
  /\ F32.of_Z (2 ^ 127) = S754_finite false 8388608 104
  /\ F32.leb F32.zero F32.nan = false.
Proof.
  split; [vm_compute; reflexivity |].
  split; [vm_compute; reflexivity |].
  split; vm_compute; reflexivity.
Qed.

Lemma relu_plus (v : F32.farray) :
  Forall F32.zero_or_more_or_nan (F32.fdata (F32.relu v)).
Proof.
  cbn. apply Forall_forall. intros r Hr.
  apply list_elem_of_fmap in Hr as (x & -> & _).
  apply plus_or_nan_spec, relu_scalar_plus.
Qed.

Lemma loss_value_plus (v : F32.farray) :
  Forall F32.zero_or_more_or_nan (F32.fdata (F32.reduce_sum (F32.square v))).
Proof.
  cbn. constructor; [| constructor].
  apply plus_or_nan_spec, sum_plus.
  apply Forall_forall. intros r Hr.
  apply list_elem_of_fmap in Hr as (x & -> & _).
  apply fmul_square_plus.
Qed.

(** C10, amended: whatever float32 arrays are fed and whatever the
    variables hold, no component of the value of [relu_vector] and no value
    of the loss is below zero: each is zero or more, infinity included, or
    it is not a number. *)
Theorem relu_vector_and_loss_never_negative
    (vars feed : gmap string F32.farray) (W b : tensor) :
  match F32.eval vars feed (relu_vector W b) with
  | Ok v => Forall F32.zero_or_more_or_nan (F32.fdata v)
  | Raise _ => True
  end
  /\ match F32.eval vars feed (loss (relu_vector W b)) with
     | Ok v => Forall F32.zero_or_more_or_nan (F32.fdata v)
     | Raise _ => True
     end.
Proof.
  split.
  - unfold relu_vector. rewrite f32_eval_Relu.
    destruct (F32.eval vars feed (vector_sum W b)) as [v |]; cbn [bind]; [| exact I].
    apply relu_plus.
  - unfold loss. rewrite f32_eval_ReduceSum, f32_eval_Square.
    destruct (F32.eval vars feed (Sub (relu_vector W b) placeholder_output)) as [v |];
      cbn [bind]; [| exact I].
    apply loss_value_plus.
Qed.

(** *** The training target *)

Lemma randn_2 (w : world) :
  np_random_randn [2%nat] w
  = Done (NDArray [2%nat] [np_random w 0%nat; np_random w 1%nat])
         (World (fun i => np_random w (2 + i)%nat) (global_variables w)
                (session_vars w) (stdout w)).
Proof. reflexivity. Qed.

Lemma target_value (x1 x2 : Q) :
  target (NDArray [2%nat] [x1; x2])
  = Ok (NDArray [3%nat] [Qmax 0 x1 * 1; Qmax 0 x2 * 0; Qmax 0 0 * 0]).
Proof. reflexivity. Qed.

(** C8: the vector [in_vec] drawn in the training loop has two entries
    [(x1, x2)], and for every such vector the target
    [np.maximum(0, np.append(in_vec, 0)) * [1, 0, 0]] is
    [(max(0, x1), 0, 0)]. *)
Theorem target_is_relu_of_first (w : world) (x1 x2 : Q) :
  (exists d1 d2 w',
     np_random_randn [2%nat] w = Done (NDArray [2%nat] [d1; d2]) w')
  /\ exists t1 t2 t3,
       target (NDArray [2%nat] [x1; x2]) = Ok (NDArray [3%nat] [t1; t2; t3])
       /\ t1 == Qmax 0 x1 /\ t2 == 0 /\ t3 == 0.
Proof.
  split.
  - do 3 eexists. apply randn_2.
  - do 3 eexists. split; [apply target_value |].
    repeat split; ring.
Qed.

(** *** Arrays of the shapes of the layer *)

Lemma is_array_32 W :
  is_array [3; 2]%nat W -> exists a b c d e f, W = NDArray [3; 2]%nat [a; b; c; d; e; f].
Proof.
  destruct W as [s d]. intros [Hs Hd]. cbn in *. subst s.
  do 7 (destruct d as [|? d]; try discriminate Hd).
  eauto 10.
Qed.

Lemma is_array_3 b :
  is_array [3%nat] b -> exists a1 a2 a3, b = NDArray [3%nat] [a1; a2; a3].
Proof.
  destruct b as [s d]. intros [Hs Hd]. cbn in *. subst s.
  do 4 (destruct d as [|? d]; try discriminate Hd).
  eauto 10.
Qed.

(** *** Sums of squares *)

Lemma sum_nonneg (l : list Q) : Forall (Qle 0) l -> 0 <= TF.sum l.
Proof.
  induction 1 as [| x l Hx _ IH]; cbn.
  - apply Qle_refl.
  - change (0 <= x + TF.sum l). lra.
Qed.

Lemma squares_nonneg (l : list Q) : Forall (Qle 0) (map (fun x => x * x) l).
Proof.
  induction l as [| x l IH]; constructor; [nra | exact IH].
Qed.

(** *** One training step in the session *)

Section Training.

Variables vars feed : gmap string ndarray.
Variables w11 w12 w21 w22 w31 w32 b1 b2 b3 x1 x2 y1 y2 y3 : Q.
Variable rate : Q.

Hypothesis matrix_value :
  vars !! "my_matrix" = Some (NDArray [3; 2]%nat [w11; w12; w21; w22; w31; w32]).
Hypothesis vector_value :
  vars !! "my_vector" = Some (NDArray [3%nat] [b1; b2; b3]).
Hypothesis input_value :
  feed !! "my_input" = Some (NDArray [2%nat] [x1; x2]).
Hypothesis output_value :
  feed !! "my_output" = Some (NDArray [3%nat] [y1; y2; y3]).

Let r1 := relu_scalar (w11 * x1 + (w12 * x2 + 0) + b1).
Let r2 := relu_scalar (w21 * x1 + (w22 * x2 + 0) + b2).
Let r3 := relu_scalar (w31 * x1 + (w32 * x2 + 0) + b3).

Lemma eval_loss :
  eval vars feed the_loss
  = Ok (reduce_sum (square (NDArray [3%nat] [r1 - y1; r2 - y2; r3 - y3]))).
Proof.
  unfold the_loss, loss.
  rewrite eval_ReduceSum, eval_Square, eval_Sub.
  rewrite (eval_relu_vector _ _ _ _ _ _ _ _ _ _ _ _ _
             matrix_value vector_value input_value).
  cbn [bind placeholder_output eval]. rewrite output_value. reflexivity.
Qed.

(** The gradients the optimizer computes, one array for each variable and
    of its shape: with [d_i] twice the residual of component [i] where the
    unit is active and zero where it is not, [d_i] for the vector and
    [d_i * x_j] for the matrix. *)
Let d1 := 1 * (2 * (r1 - y1))
          * (if Qlt_le_dec 0 (w11 * x1 + (w12 * x2 + 0) + b1) then 1 else 0).
Let d2 := 1 * (2 * (r2 - y2))
          * (if Qlt_le_dec 0 (w21 * x1 + (w22 * x2 + 0) + b2) then 1 else 0).
Let d3 := 1 * (2 * (r3 - y3))
          * (if Qlt_le_dec 0 (w31 * x1 + (w32 * x2 + 0) + b3) then 1 else 0).

Lemma gradients_loss :
  gradients vars feed the_loss
  = Ok (<["my_vector" := NDArray [3%nat] [d1; d2; d3]]>
          (<["my_matrix" :=
               NDArray [3; 2]%nat
                 [d1 * x1 + 0; d1 * x2 + 0; d2 * x1 + 0; d2 * x2 + 0;
                  d3 * x1 + 0; d3 * x2 + 0]]> ∅)).
Proof.
  unfold gradients, the_loss, loss, the_relu_vector, relu_vector, vector_sum,
    matrix_product.
  cbn [backprop eval bind placeholder_input placeholder_output].
  rewrite matrix_value, vector_value, input_value, output_value.
  cbn.
  unfold accumulate. rewrite lookup_empty. cbn [bind].
  rewrite lookup_insert_ne by done. rewrite lookup_empty.
  reflexivity.
Qed.

Lemma training_run :
  exists l vars',
    session_run vars feed [FetchMinimize rate the_loss; FetchTensor the_loss]
    = Ok ([None; Some (NDArray [] [l])], vars')
    /\ 0 <= l
    /\ layer_vars vars'.
Proof.
  unfold session_run.
  cbn [fetch_values fetch_value apply_fetches]. rewrite eval_loss, gradients_loss.
  cbn [bind].
  eexists _, _. split; [reflexivity |]. split.
  - apply sum_nonneg, squares_nonneg.
  - eexists _, _. rewrite !lookup_merge.
    rewrite matrix_value, vector_value.
    rewrite lookup_insert_eq.
    rewrite lookup_insert_ne by done. rewrite lookup_insert_eq.
    cbn. repeat split; reflexivity.
Qed.

End Training.

(** *** The training loop *)

Lemma training_step_ok (rate : Q) (i : nat) (w : world) :
  layer_vars (session_vars w) ->
  exists l w',
    training_step (FetchMinimize rate the_loss) the_loss i w = Done tt w'
    /\ descent_iteration rate the_loss i w w'
    /\ 0 <= l
    /\ stdout w' = stdout w ++ [OutIter i l]
    /\ (forall j, np_random w' j = np_random w (2 + j)%nat)
    /\ global_variables w' = global_variables w
    /\ layer_vars (session_vars w').
Proof.
  intros (W & b & HW & AW & Hb & Ab).
  destruct (is_array_32 W AW) as (w11 & w12 & w21 & w22 & w31 & w32 & ->).
  destruct (is_array_3 b Ab) as (b1 & b2 & b3 & ->).
  destruct (training_run (session_vars w)
              (training_feed (sample w)
                 (NDArray [3%nat] [Qmax 0 (np_random w 0%nat) * 1;
                                   Qmax 0 (np_random w 1%nat) * 0; Qmax 0 0 * 0]))
              w11 w12 w21 w22 w31 w32 b1 b2 b3
              (np_random w 0%nat) (np_random w 1%nat)
              (Qmax 0 (np_random w 0%nat) * 1) (Qmax 0 (np_random w 1%nat) * 0)
              (Qmax 0 0 * 0) rate HW Hb)
    as (l & vars' & Hrun & Hl & Hvars); [reflexivity | reflexivity |].
  exists l,
    (World (fun j => np_random w (2 + j)%nat) (global_variables w) vars'
           (stdout w ++ [OutIter i l])).
  split.
  - unfold training_step, bindM. rewrite randn_2, target_value. cbn [call].
    unfold run. cbn [session_vars np_random global_variables stdout].
    fold (sample w). rewrite Hrun. reflexivity.
  - split; [| repeat split; assumption].
    eexists _, l. split; [apply target_value |].
    split; [exact Hrun | reflexivity].
Qed.

Lemma for_each_steps {A} (body : A -> M unit) (l : list A) (w w' : world) :
  for_each l body w = Done tt w'
  <-> steps (fun x w w' => body x w = Done tt w') l w w'.
Proof.
  revert w. induction l as [| x l IH]; intros w; cbn.
  - unfold ret. split.
    + intros E. inversion E. constructor.
    + intros R. inversion R. reflexivity.
  - unfold bindM. split.
    + destruct (body x w) as [[] w1 |] eqn:E; [| discriminate].
      intros R. econstructor; [exact E | apply IH, R].
    + intros R. inversion R as [| ? ? ? w1 ? E R']; subst.
      rewrite E. apply IH, R'.
Qed.

Lemma training_loop_ok (rate : Q) (n : nat) :
  forall (k : nat) (w : world),
    layer_vars (session_vars w) ->
    exists ls w',
      for_each (seq k n) (training_step (FetchMinimize rate the_loss) the_loss) w
      = Done tt w'
      /\ steps (descent_iteration rate the_loss) (seq k n) w w'
      /\ length ls = n
      /\ Forall (Qle 0) ls
      /\ stdout w' = stdout w ++ zip_with OutIter (seq k n) ls
      /\ (forall j, np_random w' j = np_random w (2 * n + j)%nat)
      /\ global_variables w' = global_variables w
      /\ layer_vars (session_vars w').
Proof.
  induction n as [| n IH]; intros k w Hw.
  - exists [], w. cbn. rewrite app_nil_r. repeat split; auto. constructor.
  - destruct (training_step_ok rate k w Hw)
      as (l & w1 & Hstep & Hit & Hl & Hout1 & Hrnd1 & Hgv1 & Hv1).
    destruct (IH (S k) w1 Hv1)
      as (ls & w' & Hloop & Hsteps & Hlen & Hls & Hout & Hrnd & Hgv & Hv').
    exists (l :: ls), w'. cbn [seq for_each]. unfold bindM. rewrite Hstep.
    split; [exact Hloop |].
    split; [econstructor; eassumption |].
    split; [cbn; congruence |].
    split; [constructor; assumption |].
    split; [rewrite Hout, Hout1; cbn; rewrite <- app_assoc; reflexivity |].
    split; [| split; [congruence | assumption]].
    intros j. rewrite Hrnd, Hrnd1. f_equal. lia.
Qed.

(** *** The cells around the loop *)

Lemma session_cell_ok (w : world) (W b : ndarray) :
  global_variables w = [("my_matrix", W); ("my_vector", b)] ->
  is_array [3; 2]%nat W -> is_array [3%nat] b ->
  exists v,
    session_cell the_relu_vector w
    = Done tt (World (np_random w) (global_variables w)
                     (<["my_matrix" := W]> (<["my_vector" := b]> ∅))
                     (stdout w ++ [OutArrays [v]])).
Proof.
  intros Hgv AW Ab.
  destruct (is_array_32 W AW) as (w11 & w12 & w21 & w22 & w31 & w32 & ->).
  destruct (is_array_3 b Ab) as (b1 & b2 & b3 & ->).
  unfold session_cell, bindM, tf_Session, tf_global_variables_initializer, run.
  cbn [session_vars global_variables np_random stdout].
  rewrite Hgv.
  cbn [session_run fetch_values fetch_value apply_fetches bind foldr fst snd].
  cbn [session_vars global_variables np_random stdout].
  unfold session_run. cbn [fetch_values fetch_value].
  erewrite eval_relu_vector; [| reflexivity ..].
  cbn [bind apply_fetches keep_arrays omap].
  eexists. unfold print. cbn. reflexivity.
Qed.

Lemma retrieval_cell_ok (w : world) :
  layer_vars (session_vars w) ->
  exists W b,
    retrieval_cell (Var "my_matrix") (Var "my_vector") w
    = Done tt (World (np_random w) (global_variables w) (session_vars w)
                     (stdout w ++ [OutArrays [W]] ++ [OutArrays [b]])).
Proof.
  intros (W & b & HW & _ & Hb & _). exists W, b.
  unfold retrieval_cell, bindM, run, session_run.
  cbn [fetch_values fetch_value eval]. rewrite HW, Hb.
  unfold print. cbn. rewrite <- app_assoc. reflexivity.
Qed.

Lemma iterations_printed_app (o1 o2 : list output) :
  iterations_printed (o1 ++ o2) = iterations_printed o1 ++ iterations_printed o2.
Proof. apply omap_app. Qed.

Lemma iterations_printed_lines (ks : list nat) (ls : list Q) :
  iterations_printed (zip_with OutIter ks ls) = zip ks ls.
Proof.
  revert ls. induction ks as [| i ks IH]; intros [| l ls]; cbn; try reflexivity.
  unfold iterations_printed in IH. rewrite IH. reflexivity.
Qed.

(** *** The whole notebook

    From a freshly opened notebook every cell runs to its end.  The first
    cells draw 6 + 6 + 3 numbers, the loop runs its [n] iterations from the
    world [w0] the cells before it leave, and each iteration draws two more
    numbers and prints one line. *)
Lemma notebook_runs (rate : Q) (n : nat) (draws : nat -> Q) :
  exists ls w0 w1 w,
    notebook rate n (fresh draws) = Done tt w
    /\ (session_vars w0 = initial_vars draws
        /\ forall j, np_random w0 j = draws (15 + j)%nat)
    /\ for_each (range n) (training_step (FetchMinimize rate the_loss) the_loss) w0
       = Done tt w1
    /\ steps (descent_iteration rate the_loss) (range n) w0 w1
    /\ stdout w1 = stdout w0 ++ zip_with OutIter (range n) ls
    /\ length ls = n
    /\ Forall (Qle 0) ls
    /\ iterations_printed (stdout w) = zip (range n) ls
    /\ session_vars w = session_vars w1
    /\ (forall j, np_random w j = draws (15 + 2 * n + j)%nat)
    /\ layer_vars (session_vars w).
Proof.
  unfold notebook, bindM.
  change (constants_cells (fresh draws))
    with (Done tt (World (fun i => draws (6 + i)%nat) [] ∅
                     [OutTensor (Const (NDArray [] [5]));
                      OutTensor (Const (NDArray [3; 2]%nat (map draws (seq 0 6))))])).
  cbv beta iota.
  set (W := NDArray [3; 2]%nat (map draws (seq 6 6))).
  set (b := NDArray [3%nat] (map draws (seq 12 3))).
  set (out1 := [OutTensor (Const (NDArray [] [5]));
                OutTensor (Const (NDArray [3; 2]%nat (map draws (seq 0 6))));
                OutTensor (Var "my_matrix"); OutTensor (Var "my_vector")]).
  match goal with
  | |- context [variables_cell ?w] =>
      change (variables_cell w)
        with (Done (Var "my_matrix", Var "my_vector")
                (World (fun i => draws (15 + i)%nat)
                   [("my_matrix", W); ("my_vector", b)] ∅ out1))
  end.
  cbv beta iota. cbn [fst snd].
  set (out2 := out1 ++ [OutTensor placeholder_input;
                        OutTensor (matrix_product (Var "my_matrix"));
                        OutTensor (vector_sum (Var "my_matrix") (Var "my_vector"));
                        OutTensor the_relu_vector]).
  match goal with
  | |- context [layer_cell ?W ?b ?w] =>
      change (layer_cell W b w)
        with (Done the_relu_vector
                (World (np_random w) (global_variables w) (session_vars w) out2))
  end.
  cbv beta iota. cbn [np_random global_variables session_vars].
  match goal with
  | |- context [session_cell _ ?w] =>
      destruct (session_cell_ok w W b) as (v & ->);
        [reflexivity | split; reflexivity | split; reflexivity |]
  end.
  cbn [np_random global_variables session_vars stdout].
  unfold training_cell, bindM, print.
  cbn [np_random global_variables session_vars stdout].
  fold the_loss.
  match goal with
  | |- context [for_each _ _ ?w] =>
      destruct (training_loop_ok rate n 0 w)
        as (ls & w1 & Hloop & Hsteps & Hlen & Hls & Hout & Hrnd & Hgv & Hv1);
        [ exists W, b; repeat split; reflexivity |];
        pose (w0 := w)
  end.
  unfold range. rewrite Hloop.
  destruct (retrieval_cell_ok w1 Hv1) as (Wv & bv & ->).
  exists ls, w0, w1. eexists. split; [reflexivity |].
  split; [split; [reflexivity | intros j; reflexivity] |].
  split; [exact Hloop |].
  split; [exact Hsteps |].
  split; [exact Hout |].
  split; [exact Hlen |]. split; [exact Hls |].
  split.
  { cbn [stdout]. rewrite Hout. cbn [stdout].
    rewrite !iterations_printed_app, iterations_printed_lines.
    cbn. rewrite !app_nil_r. reflexivity. }
  split; [reflexivity |].
  split; [| exact Hv1].
  intros j. cbn [np_random]. rewrite Hrnd. reflexivity.
Qed.

(** C2: run from a freshly opened notebook, the loop of
    [src/unnamed/part_000] ([for i in range(150)]) makes exactly 150
    gradient-descent iterations and the loop of the ipynb
    ([for i in range(15)]) exactly 15; iteration [i] makes one descent step
    and prints one line with [i] and the loss, so that the lines carry the
    indices 0, 1, ..., N-1 in this order. *)
Theorem training_loops_run_150_and_15 (draws : nat -> Q) :
  (exists body,
     Py.for_loops Py.Part000.cells
     = [("i", Py.Call (Py.Name "range") [Py.Int 150] [], body)]
     /\ last body
        = Some (Py.print_
                  (Py.Call (Py.Attr (Py.Str ("{:8d}" +:+ tab +:+ "{:1.2e}")) "format")
                     [Py.Name "i"; Py.Name "loss_value"] [])))
  /\ (exists ls w0 w1 w,
        part_000 (fresh draws) = Done tt w
        /\ (session_vars w0 = initial_vars draws
            /\ forall j, np_random w0 j = draws (15 + j)%nat)
        /\ steps (descent_iteration (1 # 10) the_loss) (seq 0 150) w0 w1
        /\ session_vars w = session_vars w1
        /\ length ls = 150%nat
        /\ stdout w1 = stdout w0 ++ zip_with OutIter (seq 0 150) ls
        /\ iterations_printed (stdout w) = zip (seq 0 150) ls)
  /\ (exists body,
        Py.for_loops Py.Ipynb.cells
        = [("i", Py.Call (Py.Name "range") [Py.Int 15] [], body)]
        /\ last body
           = Some (Py.print_
                     (Py.Call (Py.Attr (Py.Str ("{:8d}" +:+ tab +:+ "{:1.2e}")) "format")
                        [Py.Name "i"; Py.Name "loss_value"] [])))
  /\ (exists ls w0 w1 w,
        ipynb (fresh draws) = Done tt w
        /\ (session_vars w0 = initial_vars draws
            /\ forall j, np_random w0 j = draws (15 + j)%nat)
        /\ steps (descent_iteration (7 # 100) the_loss) (seq 0 15) w0 w1
        /\ session_vars w = session_vars w1
        /\ length ls = 15%nat
        /\ stdout w1 = stdout w0 ++ zip_with OutIter (seq 0 15) ls
        /\ iterations_printed (stdout w) = zip (seq 0 15) ls).
Proof.
  split; [eexists; split; reflexivity |].
  split.
  { destruct (notebook_runs (1 # 10) 150 draws)
      as (ls & w0 & w1 & w & Hrun & Hw0 & _ & Hsteps & Hout1 & Hlen & _ & Hout
          & Hvars & _).
    exists ls, w0, w1, w.
    split; [exact Hrun |]. split; [exact Hw0 |]. split; [exact Hsteps |].
    split; [exact Hvars |]. split; [exact Hlen |]. split; [exact Hout1 | exact Hout]. }
  split; [eexists; split; reflexivity |].
  destruct (notebook_runs (7 # 100) 15 draws)
    as (ls & w0 & w1 & w & Hrun & Hw0 & _ & Hsteps & Hout1 & Hlen & _ & Hout
        & Hvars & _).
  exists ls, w0, w1, w.
  split; [exact Hrun |]. split; [exact Hw0 |]. split; [exact Hsteps |].
  split; [exact Hvars |]. split; [exact Hlen |]. split; [exact Hout1 | exact Hout].
Qed.

(** *** Errors *)

Lemma framework_only_ret {A} (a : A) : framework_only (ret a).
Proof. intros w e E. discriminate E. Qed.

Lemma framework_only_print (o : output) : framework_only (print o).
Proof. intros w e E. discriminate E. Qed.

Lemma framework_only_call {A} (r : result A) : framework_only (call r).
Proof.
  intros w e E. unfold call in E. destruct r as [a | err]; [discriminate |].
  inversion E. eauto.
Qed.

Lemma framework_only_run fs feed : framework_only (run fs feed).
Proof.
  intros w e E. unfold run in E.
  destruct (session_run _ _ _) as [[vs vars'] | err]; [discriminate |].
  inversion E. eauto.
Qed.

Lemma framework_only_bind {A B} (m : M A) (k : A -> M B) :
  framework_only m -> (forall a, framework_only (k a)) -> framework_only (bindM m k).
Proof.
  intros Hm Hk w e E. unfold bindM in E.
  destruct (m w) as [a w' |e'] eqn:Em.
  - eapply Hk, E.
  - inversion E; subst. eapply Hm, Em.
Qed.

Lemma framework_only_for_each {A} (l : list A) (body : A -> M unit) :
  (forall x, framework_only (body x)) -> framework_only (for_each l body).
Proof.
  intros Hb. induction l as [| x l IH]; cbn.
  - apply framework_only_ret.
  - apply framework_only_bind; [apply Hb | intros _; exact IH].
Qed.

Lemma run_loss_values vars feed rate t vs vars' :
  session_run vars feed [FetchMinimize rate (ReduceSum t); FetchTensor (ReduceSum t)]
  = Ok (vs, vars') ->
  exists l, vs = [None; Some (NDArray [] [l])].
Proof.
  unfold session_run. cbn [fetch_values fetch_value]. rewrite eval_ReduceSum.
  destruct (eval vars feed t) as [v |]; cbn [bind]; [| discriminate].
  destruct (apply_fetches _ _ _ _); cbn [bind]; [| discriminate].
  intros E. inversion E. eexists. reflexivity.
Qed.

Lemma run_pair_values vars feed a b vs vars' :
  session_run vars feed [FetchTensor a; FetchTensor b] = Ok (vs, vars') ->
  exists va vb, vs = [Some va; Some vb].
Proof.
  unfold session_run. cbn [fetch_values fetch_value apply_fetches].
  destruct (eval vars feed a) as [va |]; cbn [bind]; [| discriminate].
  destruct (eval vars feed b) as [vb |]; cbn [bind]; [| discriminate].
  intros E. inversion E. eauto.
Qed.

Lemma framework_only_training_step rate t i :
  framework_only (training_step (FetchMinimize rate (loss t)) (loss t) i).
Proof.
  unfold training_step.
  apply framework_only_bind; [intros w e E; discriminate E |]. intros in_vec.
  apply framework_only_bind; [apply framework_only_call |]. intros out_vec.
  intros w e E. unfold bindM in E.
  destruct (run _ _ w) as [r w' | e'] eqn:Er.
  - unfold run in Er.
    destruct (session_run _ _ _) as [[vs vars'] | err] eqn:Es; [| discriminate].
    apply run_loss_values in Es as [l ->].
    inversion Er; subst. discriminate E.
  - inversion E; subst. eapply framework_only_run, Er.
Qed.

Lemma framework_only_retrieval a b : framework_only (retrieval_cell a b).
Proof.
  intros w e E. unfold retrieval_cell, bindM in E.
  destruct (run _ _ w) as [r w' | e'] eqn:Er.
  - unfold run in Er.
    destruct (session_run _ _ _) as [[vs vars'] | err] eqn:Es; [| discriminate].
    apply run_pair_values in Es as (va & vb & ->).
    inversion Er; subst. discriminate E.
  - inversion E; subst. eapply framework_only_run, Er.
Qed.

Lemma framework_only_notebook rate n : framework_only (notebook rate n).
Proof.
  unfold notebook.
  apply framework_only_bind; [intros w e E; discriminate E |]. intros _.
  apply framework_only_bind; [intros w e E; discriminate E |]. intros vs.
  apply framework_only_bind; [intros w e E; discriminate E |]. intros t.
  apply framework_only_bind.
  { unfold session_cell.
    apply framework_only_bind; [intros w e E; discriminate E |]. intros _.
    apply framework_only_bind; [intros w e E; discriminate E |]. intros init.
    apply framework_only_bind; [apply framework_only_run |]. intros _.
    apply framework_only_bind; [apply framework_only_run |]. intros v.
    apply framework_only_print. }
  intros _.
  apply framework_only_bind.
  { unfold training_cell.
    apply framework_only_bind; [apply framework_only_print |]. intros _.
    apply framework_only_for_each. intros i. apply framework_only_training_step. }
  intros _.
  apply framework_only_bind; [apply framework_only_retrieval |]. intros _.
  apply framework_only_print.
Qed.

(** Two errors of the framework, as the cells would meet them: the layer is
    run without the input, and with an input of the wrong shape. *)
Example missing_feed_raises (w : world) (W b : ndarray) :
  run [FetchTensor the_relu_vector] ∅
      (World (np_random w) (global_variables w)
             {[ "my_matrix" := W; "my_vector" := b ]} (stdout w))
  = Raised (External (MissingFeed "my_input")).
Proof. reflexivity. Qed.

Example shape_mismatch_raises (w : world) (W b : ndarray) :
  run [FetchTensor the_relu_vector] {[ "my_input" := NP.asarray [1; 2; 3] ]}
      (World (np_random w) (global_variables w)
             {[ "my_matrix" := W; "my_vector" := b ]} (stdout w))
  = Raised (External ShapeError).
Proof. reflexivity. Qed.

(** C5: no statement of either notebook catches an exception, raises one or
    checks a condition; an error of a framework call is the outcome of the
    cell as it is; and the notebook never ends in an exception of its own:
    whatever it raises, from any state, is an error of the framework. *)
Theorem no_error_handling_of_its_own (rate : Q) (n : nat) (w : world) :
  forallb (fun s => negb (Py.handles_errors s)) (Py.statements Py.Part000.cells) = true
  /\ forallb (fun s => negb (Py.handles_errors s)) (Py.statements Py.Ipynb.cells) = true
  /\ (forall fetches feed,
        match session_run (session_vars w) feed fetches with
        | Raise err => run fetches feed w = Raised (External err)
        | Ok _ => True
        end)
  /\ match notebook rate n w with
     | Raised PythonError => False
     | _ => True
     end.
Proof.
  split; [vm_compute; reflexivity |].
  split; [vm_compute; reflexivity |].
  split.
  - intros fetches feed. unfold run.
    destruct (session_run _ _ _) as [[vs vars'] | err]; [exact I | reflexivity].
  - destruct (notebook rate n w) as [[] w' | e] eqn:E; [exact I |].
    apply framework_only_notebook in E as [err ->]. exact I.
Qed.

(** *** What the cells call *)

(** Statements about the source text are settled by evaluation, one
    conjunct at a time. *)
Ltac by_evaluation :=
  repeat match goal with |- _ /\ _ => split end;
  vm_compute; reflexivity.

(** The enumeration of the specification leaves out [tf.reduce_sum], which
    the loss of both notebooks is built with. *)
Lemma reduce_sum_is_not_enumerated :
  ~ (forall p, p ∈ Py.calls_into "tf" Py.Part000.cells -> p ∈ enumerated_primitives).
Proof.
  intros H. specialize (H ["tf"; "reduce_sum"]).
  assert (In : ["tf"; "reduce_sum"] ∈ Py.calls_into "tf" Py.Part000.cells).
  { apply (bool_decide_unpack _). vm_compute. exact I. }
  apply H in In. revert In.
  apply (bool_decide_unpack _). vm_compute. exact I.
Qed.

(** C3, amended: the framework functions both notebooks call are the
    enumerated ones (constant, Variable, placeholder, matmul, reshape,
    nn.relu, train.GradientDescentOptimizer, Session) together with
    global_variables_initializer, reduce_sum, square and layers.dense, each of
    which is called; the methods called on framework objects are
    [session.run] and [optimizer.minimize]; and two tensors are combined with
    [+], two with [-], and a numpy array with a list by [*]. *)
Theorem framework_calls_of_the_notebooks :
  forallb (fun p => bool_decide (p ∈ enumerated_primitives ++ further_primitives))
          (Py.calls_into "tf" Py.Part000.cells) = true
  /\ forallb (fun p => bool_decide (p ∈ Py.calls_into "tf" Py.Part000.cells))
             (enumerated_primitives ++ further_primitives) = true
  /\ forallb (fun p => bool_decide (p ∈ enumerated_primitives ++ further_primitives))
             (Py.calls_into "tf" Py.Ipynb.cells) = true
  /\ forallb (fun p => bool_decide (p ∈ Py.calls_into "tf" Py.Ipynb.cells))
             (enumerated_primitives ++ further_primitives) = true
  /\ remove_dups (Py.calls_on_objects Py.Part000.cells)
     = [["optimizer"; "minimize"]; ["session"; "run"]]
  /\ remove_dups (Py.calls_on_objects Py.Ipynb.cells)
     = [["optimizer"; "minimize"]; ["session"; "run"]]
  /\ Py.binary_operations Py.Part000.cells
     = [ (Py.OpAdd, Py.Name "matrix_product", Py.Name "variable_vector");
         (Py.OpSub, Py.Name "relu_vector", Py.Name "placeholder_output");
         (Py.OpMul,
          Py.Call (Py.np "maximum")
            [Py.Int 0; Py.Call (Py.np "append") [Py.Name "in_vec"; Py.Int 0] []] [],
          Py.ListE [Py.Int 1; Py.Int 0; Py.Int 0]) ]
  /\ Py.binary_operations Py.Ipynb.cells = Py.binary_operations Py.Part000.cells.
Proof. by_evaluation. Qed.

(** *** What the statements do *)

(** [import numpy as np] is a statement that neither prints nor calls. *)
Lemma import_is_not_a_call :
  ~ (forall s,
       s ∈ Py.statements Py.Part000.cells ->
       Py.is_print s = true
       \/ Py.is_direct_call (Py.external_names Py.Part000.cells) s = true).
Proof.
  intros H. destruct (H (Py.Import "numpy" "np")) as [E | E].
  - apply list_elem_of_lookup. exists 0%nat. reflexivity.
  - discriminate E.
  - discriminate E.
Qed.

(** C6, amended: in both notebooks every statement that is not a [print] is
    an import, a [for] loop over [range(n)], or an assignment or expression
    statement whose value is a direct call into the framework or numpy or an
    operator applied to a value of theirs; the only modules imported are
    numpy and tensorflow; every function called is [print], [range],
    [format] on a string literal, or one of the listed functions of the two
    libraries and their objects, none of which reads or writes a file, a
    socket or the command line; and no cell defines a function or a
    class. *)
Theorem statements_only_call_the_libraries_and_print :
  forallb (fun s => Py.is_print s
                    || Py.is_direct_call (Py.external_names Py.Part000.cells) s
                    || Py.is_operator_statement (Py.external_names Py.Part000.cells) s
                    || Py.is_import s || Py.is_for_range s)
          (Py.statements Py.Part000.cells) = true
  /\ forallb (fun s => Py.is_print s
                       || Py.is_direct_call (Py.external_names Py.Ipynb.cells) s
                       || Py.is_operator_statement (Py.external_names Py.Ipynb.cells) s
                       || Py.is_import s || Py.is_for_range s)
             (Py.statements Py.Ipynb.cells) = true
  /\ Py.imports Py.Part000.cells = [("np", "numpy"); ("tf", "tensorflow")]
  /\ Py.imports Py.Ipynb.cells = [("np", "numpy"); ("tf", "tensorflow")]
  /\ forallb (Py.plain_callee (Py.external_names Py.Part000.cells))
             (Py.callees Py.Part000.cells) = true
  /\ forallb (Py.plain_callee (Py.external_names Py.Ipynb.cells))
             (Py.callees Py.Ipynb.cells) = true
  /\ remove_dups (Py.called_paths Py.Part000.cells)
     = [ ["tf"; "constant"]; ["tf"; "Variable"]; ["tf"; "matmul"];
         ["tf"; "nn"; "relu"]; ["tf"; "Session"];
         ["tf"; "global_variables_initializer"]; ["np"; "asarray"];
         ["tf"; "reduce_sum"]; ["tf"; "square"];
         ["tf"; "train"; "GradientDescentOptimizer"];
         ["optimizer"; "minimize"]; ["range"]; ["np"; "random"; "randn"];
         ["np"; "maximum"]; ["np"; "append"]; ["session"; "run"];
         ["tf"; "placeholder"]; ["tf"; "layers"; "dense"]; ["tf"; "reshape"];
         ["print"] ]
  /\ Py.called_paths Py.Ipynb.cells = Py.called_paths Py.Part000.cells
  /\ forallb (fun s => negb (Py.defines s)) (Py.statements Py.Part000.cells) = true
  /\ forallb (fun s => negb (Py.defines s)) (Py.statements Py.Ipynb.cells) = true.
Proof. by_evaluation. Qed.

(** *** Placeholders and what is fed *)

Lemma placeholder_has_no_data (vars : gmap string ndarray) (p : string)
    (shp : static_shape) :
  eval vars ∅ (Placeholder p shp) = Raise (MissingFeed p).
Proof. reflexivity. Qed.

Lemma placeholder_calls_give_a_shape :
  map (fun c => (c.1, map fst c.2)) (Py.placeholder_calls Py.Part000.cells)
  = [ ([], ["dtype"; "shape"; "name"]); ([], ["dtype"; "shape"; "name"]);
      ([], ["dtype"; "shape"]) ]
  /\ Py.placeholder_calls Py.Ipynb.cells = Py.placeholder_calls Py.Part000.cells.
Proof. split; vm_compute; reflexivity. Qed.

Lemma fetches_of_the_runs :
  Py.fetches <$> Py.runs (Py.graph Py.Part000.cells)
  = [ [Py.VInit];
      [Py.VTensor the_relu_vector];
      [Py.VMinimize (1 # 10) the_loss; Py.VTensor the_loss];
      [Py.VTensor (Var "my_matrix"); Py.VTensor (Var "my_vector")] ]
  /\ Py.fetches <$> Py.runs (Py.graph Py.Ipynb.cells)
     = [ [Py.VInit];
         [Py.VTensor the_relu_vector];
         [Py.VMinimize (7 # 100) the_loss; Py.VTensor the_loss];
         [Py.VTensor (Var "my_matrix"); Py.VTensor (Var "my_vector")] ].
Proof. split; vm_compute; reflexivity. Qed.

Lemma needed_by_the_runs (cells : list Py.cell) :
  cells = Py.Part000.cells \/ cells = Py.Ipynb.cells ->
  Py.needed <$> Py.runs (Py.graph cells)
  = [ ∅; {[ "my_input" ]}; {[ "my_input"; "my_output" ]}; ∅ ].
Proof. intros [-> | ->]; vm_compute; reflexivity. Qed.

Lemma fed_to_the_runs (cells : list Py.cell) :
  cells = Py.Part000.cells \/ cells = Py.Ipynb.cells ->
  Py.fed_placeholders <$> Py.runs (Py.graph cells)
  = [ Some ∅; Some {[ "my_input" ]}; Some {[ "my_input"; "my_output" ]}; Some ∅ ].
Proof. intros [-> | ->]; vm_compute; reflexivity. Qed.

Lemma feeds_of_the_program (in_vec out_vec : ndarray) (rate : Q) :
  dom ({[ "my_input" := NP.asarray [1; 2] ]} : gmap string ndarray)
  = fetch_placeholders (FetchTensor the_relu_vector)
  /\ dom (training_feed in_vec out_vec)
     = fetch_placeholders (FetchMinimize rate the_loss)
       ∪ fetch_placeholders (FetchTensor the_loss)
  /\ fetch_placeholders (FetchTensor (Var "my_matrix"))
     ∪ fetch_placeholders (FetchTensor (Var "my_vector")) = ∅.
Proof. split; [| split]; vm_compute; reflexivity. Qed.

(** C4: every [tf.placeholder] call of the notebooks gives a shape and no
    value, and a placeholder that is not fed has no value; the four
    [session.run] calls feed exactly the placeholders their fetches depend
    on: none for the initializer, [placeholder_input] for [relu_vector],
    [placeholder_input] and [placeholder_output] for a training step, none
    for the two variables. *)
Theorem feeds_match_placeholder_dependencies
    (vars : gmap string ndarray) (in_vec out_vec : ndarray) (rate : Q) :
  (map (fun c => (c.1, map fst c.2)) (Py.placeholder_calls Py.Part000.cells)
   = [ ([], ["dtype"; "shape"; "name"]); ([], ["dtype"; "shape"; "name"]);
       ([], ["dtype"; "shape"]) ]
   /\ Py.placeholder_calls Py.Ipynb.cells = Py.placeholder_calls Py.Part000.cells)
  /\ (eval vars ∅ placeholder_input = Raise (MissingFeed "my_input")
      /\ eval vars ∅ placeholder_output = Raise (MissingFeed "my_output")
      /\ eval vars ∅ batched_vectors = Raise (MissingFeed "Placeholder"))
  /\ (Py.fetches <$> Py.runs (Py.graph Py.Part000.cells)
      = [ [Py.VInit];
          [Py.VTensor the_relu_vector];
          [Py.VMinimize (1 # 10) the_loss; Py.VTensor the_loss];
          [Py.VTensor (Var "my_matrix"); Py.VTensor (Var "my_vector")] ]
      /\ Py.fetches <$> Py.runs (Py.graph Py.Ipynb.cells)
         = [ [Py.VInit];
             [Py.VTensor the_relu_vector];
             [Py.VMinimize (7 # 100) the_loss; Py.VTensor the_loss];
             [Py.VTensor (Var "my_matrix"); Py.VTensor (Var "my_vector")] ])
  /\ Py.needed <$> Py.runs (Py.graph Py.Part000.cells)
     = [ ∅; {[ "my_input" ]}; {[ "my_input"; "my_output" ]}; ∅ ]
  /\ Py.fed_placeholders <$> Py.runs (Py.graph Py.Part000.cells)
     = [ Some ∅; Some {[ "my_input" ]}; Some {[ "my_input"; "my_output" ]}; Some ∅ ]
  /\ Py.needed <$> Py.runs (Py.graph Py.Ipynb.cells)
     = [ ∅; {[ "my_input" ]}; {[ "my_input"; "my_output" ]}; ∅ ]
  /\ Py.fed_placeholders <$> Py.runs (Py.graph Py.Ipynb.cells)
     = [ Some ∅; Some {[ "my_input" ]}; Some {[ "my_input"; "my_output" ]}; Some ∅ ]
  /\ (dom ({[ "my_input" := NP.asarray [1; 2] ]} : gmap string ndarray)
      = fetch_placeholders (FetchTensor the_relu_vector)
      /\ dom (training_feed in_vec out_vec)
         = fetch_placeholders (FetchMinimize rate the_loss)
           ∪ fetch_placeholders (FetchTensor the_loss)
      /\ fetch_placeholders (FetchTensor (Var "my_matrix"))
         ∪ fetch_placeholders (FetchTensor (Var "my_vector")) = ∅).
Proof.
  split; [exact placeholder_calls_give_a_shape |].
  split; [split; [| split]; apply placeholder_has_no_data |].
  split; [exact fetches_of_the_runs |].
  split; [exact (needed_by_the_runs _ (or_introl eq_refl)) |].
  split; [exact (fed_to_the_runs _ (or_introl eq_refl)) |].
  split; [exact (needed_by_the_runs _ (or_intror eq_refl)) |].
  split; [exact (fed_to_the_runs _ (or_intror eq_refl)) |].
  exact (feeds_of_the_program in_vec out_vec rate).
Qed.

(** *** The two variants *)

Lemma cells_outside_training_agree :
  Py.Part000.imports_cell = Py.Ipynb.imports_cell
  /\ Py.Part000.constant_scalar_cell = Py.Ipynb.constant_scalar_cell
  /\ Py.Part000.constant_matrix_cell = Py.Ipynb.constant_matrix_cell
  /\ Py.Part000.variables_cell = Py.Ipynb.variables_cell
  /\ Py.Part000.layer_cell = Py.Ipynb.layer_cell
  /\ Py.Part000.session_cell = Py.Ipynb.session_cell
  /\ Py.Part000.retrieval_cell = Py.Ipynb.retrieval_cell
  /\ Py.Part000.batch_cell = Py.Ipynb.batch_cell
  /\ Py.Part000.dense_cell = Py.Ipynb.dense_cell
  /\ Py.Part000.empty_cell = Py.Ipynb.empty_cell.
Proof. by_evaluation. Qed.

Lemma training_cells_agree_up_to_two_literals :
  exists before between body,
    Py.Part000.training_cell
    = before
      ++ [Py.Assign ["optimizer"]
            (Py.Call (Py.Attr (Py.tf "train") "GradientDescentOptimizer")
               [Py.Float (1 # 10)] [])]
      ++ between
      ++ [Py.For "i" (Py.Call (Py.Name "range") [Py.Int 150] []) body]
    /\ Py.Ipynb.training_cell
       = before
         ++ [Py.Assign ["optimizer"]
               (Py.Call (Py.Attr (Py.tf "train") "GradientDescentOptimizer")
                  [Py.Float (7 # 100)] [])]
         ++ between
         ++ [Py.For "i" (Py.Call (Py.Name "range") [Py.Int 15] []) body]
    /\ body !! 1%nat
       = Some (Py.Assign ["out_vec"]
                 (Py.BinOp Py.OpMul
                    (Py.Call (Py.np "maximum")
                       [Py.Int 0;
                        Py.Call (Py.np "append") [Py.Name "in_vec"; Py.Int 0] []] [])
                    (Py.ListE [Py.Int 1; Py.Int 0; Py.Int 0]))).
Proof.
  exists (take 2 Py.Part000.training_cell),
         (take 2 (drop 3 Py.Part000.training_cell)),
         (match Py.Part000.training_cell !! 5%nat with
          | Some (Py.For _ _ body) => body
          | _ => []
          end).
  by_evaluation.
Qed.

Lemma graphs_agree_outside_the_optimizer :
  delete "optimizer" (delete "gradient_descent_step"
                        (Py.env (Py.graph Py.Part000.cells)))
  = delete "optimizer" (delete "gradient_descent_step"
                          (Py.env (Py.graph Py.Ipynb.cells))).
Proof.
  apply map_to_list_inj. vm_compute. reflexivity.
Qed.

Lemma graphs_agree_up_to_the_rate :
  delete "optimizer" (delete "gradient_descent_step"
                        (Py.env (Py.graph Py.Part000.cells)))
  = delete "optimizer" (delete "gradient_descent_step"
                          (Py.env (Py.graph Py.Ipynb.cells)))
  /\ Py.env (Py.graph Py.Part000.cells) !! "loss" = Some (Py.VTensor the_loss)
  /\ Py.env (Py.graph Py.Ipynb.cells) !! "loss" = Some (Py.VTensor the_loss)
  /\ Py.env (Py.graph Py.Part000.cells) !! "optimizer" = Some (Py.VOptimizer (1 # 10))
  /\ Py.env (Py.graph Py.Ipynb.cells) !! "optimizer" = Some (Py.VOptimizer (7 # 100))
  /\ Py.env (Py.graph Py.Part000.cells) !! "gradient_descent_step"
     = Some (Py.VMinimize (1 # 10) the_loss)
  /\ Py.env (Py.graph Py.Ipynb.cells) !! "gradient_descent_step"
     = Some (Py.VMinimize (7 # 100) the_loss).
Proof. split; [exact graphs_agree_outside_the_optimizer | by_evaluation]. Qed.

(** C9: the two notebooks are the same cell by cell except for the training
    cell, whose statements are the same except for the literal given to
    [GradientDescentOptimizer] (0.1 and 0.07) and the literal given to
    [range] (150 and 15); the graphs built from them bind every name to the
    same node (the same layer for [relu_vector], the same sum of squares for
    [loss]) and differ in the rate of the optimizer only; the target is
    built by the same statement. *)
Theorem variants_differ_in_rate_and_iterations :
  (Py.Part000.imports_cell = Py.Ipynb.imports_cell
   /\ Py.Part000.constant_scalar_cell = Py.Ipynb.constant_scalar_cell
   /\ Py.Part000.constant_matrix_cell = Py.Ipynb.constant_matrix_cell
   /\ Py.Part000.variables_cell = Py.Ipynb.variables_cell
   /\ Py.Part000.layer_cell = Py.Ipynb.layer_cell
   /\ Py.Part000.session_cell = Py.Ipynb.session_cell
   /\ Py.Part000.retrieval_cell = Py.Ipynb.retrieval_cell
   /\ Py.Part000.batch_cell = Py.Ipynb.batch_cell
   /\ Py.Part000.dense_cell = Py.Ipynb.dense_cell
   /\ Py.Part000.empty_cell = Py.Ipynb.empty_cell)
  /\ (exists before between body,
        Py.Part000.training_cell
        = before
          ++ [Py.Assign ["optimizer"]
                (Py.Call (Py.Attr (Py.tf "train") "GradientDescentOptimizer")
                   [Py.Float (1 # 10)] [])]
          ++ between
          ++ [Py.For "i" (Py.Call (Py.Name "range") [Py.Int 150] []) body]
        /\ Py.Ipynb.training_cell
           = before
             ++ [Py.Assign ["optimizer"]
                   (Py.Call (Py.Attr (Py.tf "train") "GradientDescentOptimizer")
                      [Py.Float (7 # 100)] [])]
             ++ between
             ++ [Py.For "i" (Py.Call (Py.Name "range") [Py.Int 15] []) body]
        /\ body !! 1%nat
           = Some (Py.Assign ["out_vec"]
                     (Py.BinOp Py.OpMul
                        (Py.Call (Py.np "maximum")
                           [Py.Int 0;
                            Py.Call (Py.np "append") [Py.Name "in_vec"; Py.Int 0] []]
                           [])
                        (Py.ListE [Py.Int 1; Py.Int 0; Py.Int 0]))))
  /\ (delete "optimizer" (delete "gradient_descent_step"
                            (Py.env (Py.graph Py.Part000.cells)))
      = delete "optimizer" (delete "gradient_descent_step"
                              (Py.env (Py.graph Py.Ipynb.cells)))
      /\ Py.env (Py.graph Py.Part000.cells) !! "loss" = Some (Py.VTensor the_loss)
      /\ Py.env (Py.graph Py.Ipynb.cells) !! "loss" = Some (Py.VTensor the_loss)
      /\ Py.env (Py.graph Py.Part000.cells) !! "optimizer"
         = Some (Py.VOptimizer (1 # 10))
      /\ Py.env (Py.graph Py.Ipynb.cells) !! "optimizer"
         = Some (Py.VOptimizer (7 # 100))
      /\ Py.env (Py.graph Py.Part000.cells) !! "gradient_descent_step"
         = Some (Py.VMinimize (1 # 10) the_loss)
      /\ Py.env (Py.graph Py.Ipynb.cells) !! "gradient_descent_step"
         = Some (Py.VMinimize (7 # 100) the_loss))
  /\ Py.env (Py.graph Py.Part000.cells) !! "relu_vector"
     = Py.env (Py.graph Py.Ipynb.cells) !! "relu_vector"
  /\ the_loss = ReduceSum (Square (Sub the_relu_vector placeholder_output)).
Proof.
  split; [exact cells_outside_training_agree |].
  split; [exact training_cells_agree_up_to_two_literals |].
  split; [exact graphs_agree_up_to_the_rate |].
  split; [| reflexivity].
  rewrite (proj1 graph_relu_vector), (proj2 graph_relu_vector). reflexivity.
Qed.

(** * Further properties *)

Import Notions.

(** ** What a tensor depends on *)

Lemma eval_feed_agree (vars feed1 feed2 : gmap string ndarray) (t : tensor) :
  (forall p, p ∈ placeholders t -> feed1 !! p = feed2 !! p) ->
  eval vars feed1 t = eval vars feed2 t.
Proof.
  induction t as [v | x | p shp | t IH s | a IHa b IHb | a IHa b IHb | a IHa b IHb
                  | t IH | t IH | t IH]; intros H; cbn [eval placeholders] in *.
  - reflexivity.
  - reflexivity.
  - rewrite (H p) by set_solver. reflexivity.
  - rewrite IH by exact H. reflexivity.
  - rewrite IHa, IHb by (intros p Hp; apply H; set_solver). reflexivity.
  - rewrite IHa, IHb by (intros p Hp; apply H; set_solver). reflexivity.
  - rewrite IHa, IHb by (intros p Hp; apply H; set_solver). reflexivity.
  - rewrite IH by exact H. reflexivity.
  - rewrite IH by exact H. reflexivity.
  - rewrite IH by exact H. reflexivity.
Qed.

Lemma accepted_empty (decl : gmap string static_shape) : accepted decl ∅.
Proof. intros p v H. rewrite lookup_empty in H. discriminate. Qed.

Lemma accepted_insert (decl : gmap string static_shape) (feed : gmap string ndarray)
    (p : string) (shp : static_shape) (v : ndarray) :
  decl !! p = Some shp -> compatible shp (shape v) = true ->
  accepted decl feed -> accepted decl (<[p := v]> feed).
Proof.
  intros Hd Hc Hf q u H. destruct (decide (q = p)) as [-> | Hne].
  - rewrite lookup_insert_eq in H. inversion H; subst. eauto.
  - rewrite lookup_insert_ne in H by congruence. eapply Hf, H.
Qed.

(** X1: a [feed_dict] may hold more than a fetch needs: for a tensor of a
    graph and two feeds that [session.run] accepts (every fed array goes to
    a placeholder of the graph and has a shape its declaration admits), if
    the feeds agree on the placeholders the tensor is built from, the tensor
    has a value under one exactly if it has it under the other, and it is
    the same value. *)
Theorem value_depends_on_its_placeholders_only
    (decl : gmap string static_shape) (vars feed1 feed2 : gmap string ndarray)
    (t : tensor) :
  declares decl t -> accepted decl feed1 -> accepted decl feed2 ->
  (forall p, p ∈ placeholders t -> feed1 !! p = feed2 !! p) ->
  forall v, eval vars feed1 t = Ok v <-> eval vars feed2 t = Ok v.
Proof.
  intros _ _ _ H v. rewrite (eval_feed_agree vars feed1 feed2 t H). reflexivity.
Qed.

Lemma value_depends_on_its_placeholders_only_witness :
  eval Samples.vars Samples.feed the_relu_vector = Ok (NDArray [3%nat] [3; 0; 0])
  <-> eval Samples.vars {[ "my_input" := NDArray [2%nat] [1; 2] ]} the_relu_vector
      = Ok (NDArray [3%nat] [3; 0; 0]).
Proof.
  refine (value_depends_on_its_placeholders_only Samples.declared Samples.vars
            Samples.feed {[ "my_input" := NDArray [2%nat] [1; 2] ]} the_relu_vector
            _ _ _ _ (NDArray [3%nat] [3; 0; 0])).
  - cbn. repeat split.
  - apply (accepted_insert _ _ _ [Some 2%nat]); [reflexivity | reflexivity |].
    apply (accepted_insert _ _ _ [Some 3%nat]); [reflexivity | reflexivity |].
    apply accepted_empty.
  - apply (accepted_insert _ _ _ [Some 2%nat]); [reflexivity | reflexivity |].
    apply accepted_empty.
  - intros p Hp.
    unfold the_relu_vector, relu_vector, vector_sum, matrix_product,
      placeholder_input in Hp.
    cbn [placeholders] in Hp.
    assert (E : p = "my_input").
    { repeat (apply elem_of_union in Hp as [Hp | Hp]);
        try (apply elem_of_empty in Hp; destruct Hp).
      apply elem_of_singleton in Hp. exact Hp. }
    rewrite E. reflexivity.
Defined.

(** X2: a tensor built from a placeholder that the feed does not hold has no
    value: its evaluation raises. *)
Theorem unfed_placeholder_raises
    (vars feed : gmap string ndarray) (t : tensor) (p : string) :
  p ∈ placeholders t -> feed !! p = None ->
  exists e, eval vars feed t = Raise e.
Proof.
  intros Hp Hf.
  induction t as [v | x | q shp | t IH s | a IHa b IHb | a IHa b IHb | a IHa b IHb
                  | t IH | t IH | t IH]; cbn [eval placeholders] in *.
  - set_solver.
  - set_solver.
  - apply elem_of_singleton in Hp as <-. rewrite Hf. eauto.
  - destruct (IH Hp) as [e ->]. eauto.
  - apply elem_of_union in Hp as [Hp | Hp].
    + destruct (IHa Hp) as [e ->]. eauto.
    + destruct (IHb Hp) as [e ->]. destruct (eval vars feed a); cbn; eauto.
  - apply elem_of_union in Hp as [Hp | Hp].
    + destruct (IHa Hp) as [e ->]. eauto.
    + destruct (IHb Hp) as [e ->]. destruct (eval vars feed a); cbn; eauto.
  - apply elem_of_union in Hp as [Hp | Hp].
    + destruct (IHa Hp) as [e ->]. eauto.
    + destruct (IHb Hp) as [e ->]. destruct (eval vars feed a); cbn; eauto.
  - destruct (IH Hp) as [e ->]. eauto.
  - destruct (IH Hp) as [e ->]. eauto.
  - destruct (IH Hp) as [e ->]. eauto.
Qed.

Lemma unfed_placeholder_raises_witness :
  exists e,
    eval Samples.vars {[ "my_input" := NDArray [2%nat] [1; 2] ]} the_loss = Raise e.
Proof.
  apply (unfed_placeholder_raises Samples.vars
           {[ "my_input" := NDArray [2%nat] [1; 2] ]} the_loss "my_output").
  - apply (bool_decide_unpack _). vm_compute. exact I.
  - reflexivity.
Defined.

(** X3: a tensor built from a variable that the session does not hold (its
    initializer has not run) has no value: its evaluation raises. *)
Theorem variable_without_value_raises
    (vars feed : gmap string ndarray) (t : tensor) (x : string) :
  x ∈ variables t -> vars !! x = None ->
  exists e, eval vars feed t = Raise e.
Proof.
  intros Hp Hf.
  induction t as [v | y | q shp | t IH s | a IHa b IHb | a IHa b IHb | a IHa b IHb
                  | t IH | t IH | t IH]; cbn [eval variables] in *.
  - set_solver.
  - apply elem_of_singleton in Hp as <-. rewrite Hf. eauto.
  - set_solver.
  - destruct (IH Hp) as [e ->]. eauto.
  - apply elem_of_union in Hp as [Hp | Hp].
    + destruct (IHa Hp) as [e ->]. eauto.
    + destruct (IHb Hp) as [e ->]. destruct (eval vars feed a); cbn; eauto.
  - apply elem_of_union in Hp as [Hp | Hp].
    + destruct (IHa Hp) as [e ->]. eauto.
    + destruct (IHb Hp) as [e ->]. destruct (eval vars feed a); cbn; eauto.
  - apply elem_of_union in Hp as [Hp | Hp].
    + destruct (IHa Hp) as [e ->]. eauto.
    + destruct (IHb Hp) as [e ->]. destruct (eval vars feed a); cbn; eauto.
  - destruct (IH Hp) as [e ->]. eauto.
  - destruct (IH Hp) as [e ->]. eauto.
  - destruct (IH Hp) as [e ->]. eauto.
Qed.

Lemma variable_without_value_raises_witness :
  exists e,
    eval {[ "my_matrix" := NDArray [3; 2]%nat [1; 2; -1; 0; 3; -4] ]} Samples.feed
         the_relu_vector = Raise e.
Proof.
  apply (variable_without_value_raises
           {[ "my_matrix" := NDArray [3; 2]%nat [1; 2; -1; 0; 3; -4] ]} Samples.feed
           the_relu_vector "my_vector").
  - apply (bool_decide_unpack _). vm_compute. exact I.
  - reflexivity.
Defined.

(** ** The errors of the two runs that feed *)

Lemma compatible_vector (n : nat) (s : list nat) :
  compatible [Some n] s = true <-> s = [n].
Proof.
  unfold compatible. destruct s as [| d [| d' s]]; cbn.
  - split; discriminate.
  - rewrite andb_true_r. rewrite Nat.eqb_eq.
    split; [intros ->; reflexivity | intros E; inversion E; reflexivity].
  - split; discriminate.
Qed.




(** X5: with [my_matrix] initialized, feeding [placeholder_input] an array
    whose shape is not [(2,)] raises the shape error. *)
Theorem wrong_input_shape_is_reported
    (w : world) (feed : gmap string ndarray) (W x : ndarray) :
  session_vars w !! "my_matrix" = Some W ->
  feed !! "my_input" = Some x ->
  shape x <> [2%nat] ->
  run [FetchTensor the_relu_vector] feed w = Raised (External ShapeError).
Proof.
  intros HW Hx Hs. unfold run, session_run.
  cbn [fetch_values fetch_value].
  unfold the_relu_vector, relu_vector, vector_sum, matrix_product, placeholder_input.
  cbn [eval]. rewrite HW, Hx. cbn [bind].
  destruct (compatible [Some 2%nat] (shape x)) eqn:E.
  - apply compatible_vector in E. contradiction.
  - reflexivity.
Qed.

Lemma wrong_input_shape_is_reported_witness :
  run [FetchTensor the_relu_vector] {[ "my_input" := NP.asarray [1; 2; 3] ]}
      Samples.a_world
  = Raised (External ShapeError).
Proof.
  apply (wrong_input_shape_is_reported Samples.a_world
           {[ "my_input" := NP.asarray [1; 2; 3] ]}
           (NDArray [3; 2]%nat [1; 2; -1; 0; 3; -4]) (NP.asarray [1; 2; 3]));
    [reflexivity | reflexivity | discriminate].
Defined.





(** ** One descent step, entry by entry *)


Lemma relu_scalar_compat (s t : Q) : s == t -> relu_scalar s == relu_scalar t.
Proof. intros E. unfold relu_scalar. rewrite E. reflexivity. Qed.


Section Step.

Variables vars feed : gmap string ndarray.
Variables w11 w12 w21 w22 w31 w32 b1 b2 b3 x1 x2 y1 y2 y3 : Q.
Variable rate : Q.

Hypothesis matrix_value :
  vars !! "my_matrix" = Some (NDArray [3; 2]%nat [w11; w12; w21; w22; w31; w32]).
Hypothesis vector_value :
  vars !! "my_vector" = Some (NDArray [3%nat] [b1; b2; b3]).
Hypothesis input_value :
  feed !! "my_input" = Some (NDArray [2%nat] [x1; x2]).
Hypothesis output_value :
  feed !! "my_output" = Some (NDArray [3%nat] [y1; y2; y3]).

(** The step as the session computes it. *)
Lemma descent_step_exact :
  exists vars',
    session_run vars feed [FetchMinimize rate the_loss; FetchTensor the_loss]
    = Ok ([None;
           Some (NDArray []
                   [(relu_scalar (w11 * x1 + (w12 * x2 + 0) + b1) - y1)
                    * (relu_scalar (w11 * x1 + (w12 * x2 + 0) + b1) - y1)
                    + ((relu_scalar (w21 * x1 + (w22 * x2 + 0) + b2) - y2)
                       * (relu_scalar (w21 * x1 + (w22 * x2 + 0) + b2) - y2)
                       + ((relu_scalar (w31 * x1 + (w32 * x2 + 0) + b3) - y3)
                          * (relu_scalar (w31 * x1 + (w32 * x2 + 0) + b3) - y3)
                          + 0))])],
          vars')
    /\ vars' !! "my_matrix"
       = Some (NDArray [3; 2]%nat
                 [w11 - rate * (unit_gradient w11 w12 b1 x1 x2 y1 * x1 + 0);
                  w12 - rate * (unit_gradient w11 w12 b1 x1 x2 y1 * x2 + 0);
                  w21 - rate * (unit_gradient w21 w22 b2 x1 x2 y2 * x1 + 0);
                  w22 - rate * (unit_gradient w21 w22 b2 x1 x2 y2 * x2 + 0);
                  w31 - rate * (unit_gradient w31 w32 b3 x1 x2 y3 * x1 + 0);
                  w32 - rate * (unit_gradient w31 w32 b3 x1 x2 y3 * x2 + 0)])
    /\ vars' !! "my_vector"
       = Some (NDArray [3%nat]
                 [b1 - rate * unit_gradient w11 w12 b1 x1 x2 y1;
                  b2 - rate * unit_gradient w21 w22 b2 x1 x2 y2;
                  b3 - rate * unit_gradient w31 w32 b3 x1 x2 y3]).
Proof.
  unfold session_run. cbn [fetch_values fetch_value apply_fetches].
  rewrite (eval_loss _ _ _ _ _ _ _ _ _ _ _ _ _ _ _ _
             matrix_value vector_value input_value output_value).
  rewrite (gradients_loss _ _ _ _ _ _ _ _ _ _ _ _ _ _ _ _
             matrix_value vector_value input_value output_value).
  cbn [bind].
  eexists. split; [reflexivity |].
  rewrite !lookup_merge, matrix_value, vector_value.
  rewrite lookup_insert_eq.
  rewrite lookup_insert_ne by done. rewrite lookup_insert_eq.
  split; reflexivity.
Qed.

End Step.

(** *** The layer the training aims at *)





(** ** What a descent step leaves alone *)

Lemma bind_ok {A B} (r : result A) (k : A -> result B) (b : B) :
  bind r k = Ok b -> exists a, r = Ok a /\ k a = Ok b.
Proof. destruct r as [a |]; cbn; [eauto | discriminate]. Qed.

Lemma accumulate_other x g acc acc' y :
  accumulate x g acc = Ok acc' -> y <> x -> acc' !! y = acc !! y.
Proof.
  unfold accumulate. intros E Hy.
  destruct (acc !! x) as [g0 |].
  - apply bind_ok in E as (g' & _ & E). inversion E; subst.
    apply lookup_insert_ne. congruence.
  - inversion E; subst. apply lookup_insert_ne. congruence.
Qed.

Lemma backprop_other (vars feed : gmap string ndarray) (t : tensor) (y : string) :
  y ∉ variables t ->
  forall up acc acc',
    backprop vars feed t up acc = Ok acc' -> acc' !! y = acc !! y.
Proof.
  induction t as [v | x | q shp | t IH s | a IHa b IHb | a IHa b IHb | a IHa b IHb
                  | t IH | t IH | t IH]; intros Hy up acc acc' E;
    cbn [backprop variables] in *.
  - inversion E; reflexivity.
  - eapply accumulate_other; [exact E |]. intros ->. apply Hy, elem_of_singleton.
    reflexivity.
  - inversion E; reflexivity.
  - apply bind_ok in E as (v & _ & E). apply bind_ok in E as (up' & _ & E).
    eapply IH; eassumption.
  - apply not_elem_of_union in Hy as [Hya Hyb].
    apply bind_ok in E as (va & _ & E). apply bind_ok in E as (vb & _ & E).
    apply bind_ok in E as (vbT & _ & E). apply bind_ok in E as (vaT & _ & E).
    apply bind_ok in E as (ga & _ & E). apply bind_ok in E as (gb & _ & E).
    apply bind_ok in E as (acc1 & E1 & E).
    rewrite (IHb Hyb _ _ _ E). apply (IHa Hya _ _ _ E1).
  - apply not_elem_of_union in Hy as [Hya Hyb].
    apply bind_ok in E as (acc1 & E1 & E).
    rewrite (IHb Hyb _ _ _ E). apply (IHa Hya _ _ _ E1).
  - apply not_elem_of_union in Hy as [Hya Hyb].
    apply bind_ok in E as (acc1 & E1 & E).
    rewrite (IHb Hyb _ _ _ E). apply (IHa Hya _ _ _ E1).
  - apply bind_ok in E as (v & _ & E). apply bind_ok in E as (g & _ & E).
    eapply IH; eassumption.
  - apply bind_ok in E as (v & _ & E). apply bind_ok in E as (g & _ & E).
    eapply IH; eassumption.
  - apply bind_ok in E as (v & _ & E).
    destruct (data up) as [| u [| ? ?]]; try discriminate E.
    eapply IH; eassumption.
Qed.

(** X14: a descent step moves only the variables the loss is built from:
    every other variable the session holds, for instance those of another
    layer, has after the run the value it had before. *)
Theorem descent_step_moves_only_the_variables_of_the_loss
    (vars feed : gmap string ndarray) (rate : Q) (loss : tensor)
    (vs : list (option ndarray)) (vars' : gmap string ndarray) (y : string) :
  session_run vars feed [FetchMinimize rate loss; FetchTensor loss] = Ok (vs, vars') ->
  y ∉ variables loss ->
  vars' !! y = vars !! y.
Proof.
  unfold session_run. intros E Hy.
  apply bind_ok in E as (vs0 & _ & E). apply bind_ok in E as (vars1 & E1 & E).
  inversion E; subst. cbn [apply_fetches] in E1.
  apply bind_ok in E1 as (gs & Hg & E1). inversion E1; subst.
  rewrite lookup_merge.
  unfold gradients in Hg. rewrite (backprop_other _ _ _ _ Hy _ _ _ Hg), lookup_empty.
  destruct (vars !! y); reflexivity.
Qed.

Lemma descent_step_moves_only_the_variables_of_the_loss_witness :
  exists vs vars',
    session_run Samples.vars_and_more Samples.feed
      [FetchMinimize (1 # 10) the_loss; FetchTensor the_loss] = Ok (vs, vars')
    /\ vars' !! "dense/bias" = Some (NDArray [3%nat] [0; 0; 0]).
Proof.
  destruct (descent_step_exact Samples.vars_and_more Samples.feed
              1 2 (-1) 0 3 (-4) (-2) 1 (1 # 2) 1 2 1 0 0 (1 # 10)
              eq_refl eq_refl eq_refl eq_refl) as (vars' & Hrun & _).
  eexists _, vars'. split; [exact Hrun |].
  rewrite (descent_step_moves_only_the_variables_of_the_loss
             Samples.vars_and_more Samples.feed (1 # 10) the_loss _ vars' "dense/bias"
             Hrun).
  - reflexivity.
  - apply (bool_decide_unpack _). vm_compute. exact I.
Defined.

(** ** Arrays keep their shapes *)

Lemma length_flat_map_const {A B} (f : A -> list B) (l : list A) (n : nat) :
  (forall x, length (f x) = n) -> length (flat_map f l) = (length l * n)%nat.
Proof.
  intros H. induction l as [| x l IH]; cbn; [reflexivity |].
  rewrite length_app, H, IH. reflexivity.
Qed.

Lemma shape_eqb_eq (s t : list nat) : shape_eqb s t = true -> s = t.
Proof.
  revert t. induction s as [| m s IH]; intros [| n t]; cbn; try discriminate.
  - reflexivity.
  - intros H. apply andb_true_iff in H as [H1 H2].
    apply Nat.eqb_eq in H1 as ->. rewrite (IH _ H2). reflexivity.
Qed.

Lemma reshape_well_formed a s b : reshape a s = Ok b -> well_formed b.
Proof.
  unfold reshape, well_formed. destruct (Nat.eqb _ _) eqn:E; [| discriminate].
  intros H. inversion H; subst. cbn. apply Nat.eqb_eq in E. symmetry. exact E.
Qed.

Lemma matmul_well_formed a b c : matmul a b = Ok c -> well_formed c.
Proof.
  unfold matmul, well_formed.
  destruct (shape a) as [| m [| k [| ? ?]]]; try discriminate.
  destruct (shape b) as [| k' [| n [| ? ?]]]; try discriminate.
  destruct (_ && _); [| discriminate].
  intros H. inversion H; subst. cbn.
  rewrite (length_flat_map_const _ _ n).
  - rewrite length_seq. lia.
  - intros i. rewrite length_map, length_seq. reflexivity.
Qed.

Lemma pointwise_well_formed f a b c :
  well_formed a -> well_formed b -> pointwise f a b = Ok c -> well_formed c.
Proof.
  unfold pointwise, well_formed. intros Ha Hb.
  destruct (shape_eqb _ _) eqn:E; [| discriminate].
  apply shape_eqb_eq in E.
  intros H. inversion H; subst. cbn.
  rewrite length_zip_with. rewrite E in Ha. rewrite Ha, Hb, E. apply Nat.min_id.
Qed.

Lemma map_entries_well_formed f a : well_formed a -> well_formed (map_entries f a).
Proof. unfold well_formed, map_entries. cbn. rewrite length_map. trivial. Qed.

Lemma eval_well_formed (vars feed : gmap string ndarray) (t : tensor) (v : ndarray) :
  all_well_formed vars -> all_well_formed feed -> constants_well_formed t ->
  eval vars feed t = Ok v -> well_formed v.
Proof.
  intros Hv Hf. revert v.
  induction t as [c | x | p shp | t IH s | a IHa b IHb | a IHa b IHb | a IHa b IHb
                  | t IH | t IH | t IH]; intros v Hc E;
    cbn [eval constants_well_formed] in *.
  - inversion E; subst. exact Hc.
  - destruct (vars !! x) as [u |] eqn:Ex; [| discriminate].
    inversion E; subst. eapply Hv, Ex.
  - destruct (feed !! p) as [u |] eqn:Ex; [| discriminate].
    destruct (compatible _ _); [| discriminate].
    inversion E; subst. eapply Hf, Ex.
  - destruct (eval vars feed t) as [u |]; [| discriminate]. cbn [bind] in E.
    eapply reshape_well_formed, E.
  - destruct Hc as [Hca Hcb].
    destruct (eval vars feed a) as [va |]; [| discriminate]. cbn [bind] in E.
    destruct (eval vars feed b) as [vb |]; [| discriminate]. cbn [bind] in E.
    eapply matmul_well_formed, E.
  - destruct Hc as [Hca Hcb].
    destruct (eval vars feed a) as [va |]; [| discriminate]. cbn [bind] in E.
    destruct (eval vars feed b) as [vb |]; [| discriminate]. cbn [bind] in E.
    eapply pointwise_well_formed; [apply IHa | apply IHb | exact E]; auto.
  - destruct Hc as [Hca Hcb].
    destruct (eval vars feed a) as [va |]; [| discriminate]. cbn [bind] in E.
    destruct (eval vars feed b) as [vb |]; [| discriminate]. cbn [bind] in E.
    eapply pointwise_well_formed; [apply IHa | apply IHb | exact E]; auto.
  - destruct (eval vars feed t) as [u |]; [| discriminate]. cbn [bind] in E.
    inversion E; subst. apply map_entries_well_formed. auto.
  - destruct (eval vars feed t) as [u |]; [| discriminate]. cbn [bind] in E.
    inversion E; subst. apply map_entries_well_formed. auto.
  - destruct (eval vars feed t) as [u |]; [| discriminate]. cbn [bind] in E.
    inversion E; subst. reflexivity.
Qed.

Lemma shape_eqb_refl (s : list nat) : shape_eqb s s = true.
Proof. induction s as [| n s IH]; cbn; [reflexivity |]. rewrite Nat.eqb_refl. exact IH. Qed.

Lemma pointwise_ok f a b :
  shape a = shape b -> exists c, pointwise f a b = Ok c /\ shape c = shape a.
Proof.
  intros E. unfold pointwise. rewrite E, shape_eqb_refl. eexists. split; reflexivity.
Qed.

Lemma pointwise_shape f a b c :
  pointwise f a b = Ok c -> shape a = shape b /\ shape c = shape a.
Proof.
  unfold pointwise. destruct (shape_eqb _ _) eqn:E; [| discriminate].
  apply shape_eqb_eq in E. intros H. inversion H; subst. split; [exact E | reflexivity].
Qed.

Lemma accumulate_fits vars acc x up v :
  fits vars acc -> vars !! x = Some v -> shape up = shape v -> well_formed up ->
  exists acc', accumulate x up acc = Ok acc' /\ fits vars acc'.
Proof.
  intros Hacc Hx Hs Hw. unfold accumulate.
  destruct (acc !! x) as [g0 |] eqn:E.
  - destruct (Hacc _ _ E) as (u & Hu & Hsu & Hwu).
    rewrite Hx in Hu. inversion Hu; subst u.
    destruct (pointwise_ok Qplus g0 up) as (c & Hc & Hsc); [congruence |].
    unfold add. rewrite Hc. cbn [bind]. eexists. split; [reflexivity |].
    intros y g Hy. destruct (decide (y = x)) as [-> | Hne].
    + rewrite lookup_insert_eq in Hy. inversion Hy; subst g.
      exists v. split; [exact Hx |]. split; [congruence |].
      eapply pointwise_well_formed; [exact Hwu | exact Hw | exact Hc].
    + rewrite lookup_insert_ne in Hy by congruence. apply Hacc, Hy.
  - eexists. split; [reflexivity |].
    intros y g Hy. destruct (decide (y = x)) as [-> | Hne].
    + rewrite lookup_insert_eq in Hy. inversion Hy; subst g.
      exists v. split; [exact Hx |]. split; assumption.
    + rewrite lookup_insert_ne in Hy by congruence. apply Hacc, Hy.
Qed.

Lemma transpose_ok a m n :
  shape a = [m; n] ->
  exists t, transpose a = Ok t /\ shape t = [n; m] /\ length (data t) = (n * m)%nat.
Proof.
  intros E. unfold transpose. rewrite E. eexists. split; [reflexivity |].
  split; [reflexivity |]. cbn.
  rewrite (length_flat_map_const _ _ m).
  - rewrite length_seq. reflexivity.
  - intros j. rewrite length_map, length_seq. reflexivity.
Qed.

Lemma matmul_ok a b m k n :
  shape a = [m; k] -> shape b = [k; n] ->
  length (data a) = (m * k)%nat -> length (data b) = (k * n)%nat ->
  exists c, matmul a b = Ok c /\ shape c = [m; n].
Proof.
  intros Ea Eb La Lb. unfold matmul. rewrite Ea, Eb, La, Lb, !Nat.eqb_refl.
  eexists. split; reflexivity.
Qed.

Lemma matmul_shapes a b c :
  matmul a b = Ok c ->
  exists m k n, shape a = [m; k] /\ shape b = [k; n] /\ shape c = [m; n].
Proof.
  unfold matmul.
  destruct (shape a) as [| m [| k [| ? ?]]]; try discriminate.
  destruct (shape b) as [| k' [| n [| ? ?]]]; try discriminate.
  destruct (Nat.eqb k k') eqn:E; [| discriminate]. apply Nat.eqb_eq in E as <-.
  destruct (_ && _); [| discriminate].
  intros H. inversion H; subst. eauto 10.
Qed.

Lemma backprop_fits (vars feed : gmap string ndarray) (t : tensor) :
  all_well_formed vars -> all_well_formed feed -> constants_well_formed t ->
  forall v up acc,
    eval vars feed t = Ok v -> shape up = shape v -> well_formed up ->
    fits vars acc ->
    exists acc', backprop vars feed t up acc = Ok acc' /\ fits vars acc'.
Proof.
  intros Hv Hf.
  induction t as [c | x | p shp | t IH s | a IHa b IHb | a IHa b IHb | a IHa b IHb
                  | t IH | t IH | t IH]; intros Hc v up acc E Hs Hw Hacc;
    cbn [eval backprop constants_well_formed] in *.
  - eauto.
  - destruct (vars !! x) as [u |] eqn:Ex; [| discriminate]. inversion E; subst u.
    eapply accumulate_fits; eassumption.
  - eauto.
  - destruct (eval vars feed t) as [vt |] eqn:Et; [| discriminate]. cbn [bind] in *.
    pose proof (eval_well_formed _ _ _ _ Hv Hf Hc Et) as Hwt.
    pose proof (reshape_well_formed _ _ _ E) as Hwv.
    apply reshape_data in E as [Ed Esh].
    assert (Er : reshape up (shape vt) = Ok (NDArray (shape vt) (data up))).
    { unfold reshape. replace (numel (shape vt)) with (length (data up)).
      - rewrite Nat.eqb_refl. reflexivity.
      - unfold well_formed in *. rewrite Hw, Hs, <- Hwv, Ed, Hwt. reflexivity. }
    rewrite Er. cbn [bind].
    eapply IH; [exact Hc | reflexivity | reflexivity | | exact Hacc].
    unfold well_formed in *. cbn. rewrite Hw, Hs, <- Hwv, Ed, Hwt. reflexivity.
  - destruct Hc as [Hca Hcb].
    destruct (eval vars feed a) as [va |] eqn:Ea; [| discriminate]. cbn [bind] in *.
    destruct (eval vars feed b) as [vb |] eqn:Eb; [| discriminate]. cbn [bind] in *.
    pose proof (eval_well_formed _ _ _ _ Hv Hf Hca Ea) as Hwa.
    pose proof (eval_well_formed _ _ _ _ Hv Hf Hcb Eb) as Hwb.
    destruct (matmul_shapes _ _ _ E) as (m & k & n & Sa & Sb & Sv).
    destruct (transpose_ok vb k n Sb) as (vbT & -> & SbT & LbT).
    destruct (transpose_ok va m k Sa) as (vaT & -> & SaT & LaT).
    cbn [bind].
    assert (Lup : length (data up) = (m * n)%nat).
    { unfold well_formed in Hw. rewrite Hw, Hs, Sv. cbn. lia. }
    destruct (matmul_ok up vbT m n k) as (ga & Ega & Sga);
      [congruence | exact SbT | exact Lup | exact LbT |].
    destruct (matmul_ok vaT up k m n) as (gb & Egb & Sgb);
      [exact SaT | congruence | exact LaT | exact Lup |].
    rewrite Ega, Egb. cbn [bind].
    destruct (IHa Hca va ga acc eq_refl) as (acc1 & -> & Hacc1);
      [congruence | eapply matmul_well_formed, Ega | exact Hacc |].
    cbn [bind].
    eapply IHb; [exact Hcb | reflexivity | congruence
                 | eapply matmul_well_formed, Egb | exact Hacc1].
  - destruct Hc as [Hca Hcb].
    destruct (eval vars feed a) as [va |] eqn:Ea; [| discriminate]. cbn [bind] in *.
    destruct (eval vars feed b) as [vb |] eqn:Eb; [| discriminate]. cbn [bind] in *.
    apply pointwise_shape in E as [Sab Sv].
    destruct (IHa Hca va up acc eq_refl) as (acc1 & -> & Hacc1);
      [congruence | exact Hw | exact Hacc |].
    cbn [bind]. eapply IHb; [exact Hcb | reflexivity | congruence | exact Hw | exact Hacc1].
  - destruct Hc as [Hca Hcb].
    destruct (eval vars feed a) as [va |] eqn:Ea; [| discriminate]. cbn [bind] in *.
    destruct (eval vars feed b) as [vb |] eqn:Eb; [| discriminate]. cbn [bind] in *.
    apply pointwise_shape in E as [Sab Sv].
    destruct (IHa Hca va up acc eq_refl) as (acc1 & -> & Hacc1);
      [congruence | exact Hw | exact Hacc |].
    cbn [bind].
    eapply IHb; [exact Hcb | reflexivity | cbn; congruence
                 | apply map_entries_well_formed, Hw | exact Hacc1].
  - destruct (eval vars feed t) as [vt |] eqn:Et; [| discriminate]. cbn [bind] in *.
    inversion E; subst v. cbn [relu map_entries shape] in Hs.
    pose proof (eval_well_formed _ _ _ _ Hv Hf Hc Et) as Hwt.
    destruct (pointwise_ok Qmult up
                (map_entries (fun x => if Qlt_le_dec 0 x then 1 else 0) vt))
      as (g & Hg & Sg); [cbn; exact Hs |].
    unfold mul. rewrite Hg. cbn [bind].
    eapply IH; [exact Hc | reflexivity | congruence | | exact Hacc].
    eapply pointwise_well_formed; [exact Hw | | exact Hg].
    apply map_entries_well_formed, Hwt.
  - destruct (eval vars feed t) as [vt |] eqn:Et; [| discriminate]. cbn [bind] in *.
    inversion E; subst v. cbn [square map_entries shape] in Hs.
    pose proof (eval_well_formed _ _ _ _ Hv Hf Hc Et) as Hwt.
    destruct (pointwise_ok Qmult up (map_entries (fun x => 2 * x) vt))
      as (g & Hg & Sg); [cbn; exact Hs |].
    unfold mul. rewrite Hg. cbn [bind].
    eapply IH; [exact Hc | reflexivity | congruence | | exact Hacc].
    eapply pointwise_well_formed; [exact Hw | | exact Hg].
    apply map_entries_well_formed, Hwt.
  - destruct (eval vars feed t) as [vt |] eqn:Et; [| discriminate]. cbn [bind] in *.
    inversion E; subst v. cbn [reduce_sum shape] in Hs.
    unfold well_formed in Hw. rewrite Hs in Hw. cbn in Hw.
    destruct (data up) as [| u [| ? ?]]; try discriminate Hw.
    eapply IH; [exact Hc | reflexivity | reflexivity | | exact Hacc].
    unfold well_formed, fill. cbn. apply length_replicate.
Qed.

Lemma descend_well_formed rate u g :
  well_formed u -> well_formed g -> shape g = shape u ->
  well_formed (descend rate u g).
Proof.
  unfold well_formed, descend. cbn. intros Hu Hg E.
  rewrite length_zip_with, Hu, Hg, E. apply Nat.min_id.
Qed.

Lemma all_well_formed_empty : all_well_formed ∅.
Proof. intros x v H. rewrite lookup_empty in H. discriminate. Qed.

Lemma all_well_formed_insert (m : gmap string ndarray) (x : string) (v : ndarray) :
  well_formed v -> all_well_formed m -> all_well_formed (<[x := v]> m).
Proof.
  intros Hv Hm y u H. destruct (decide (y = x)) as [-> | Hne].
  - rewrite lookup_insert_eq in H. inversion H; subst. exact Hv.
  - rewrite lookup_insert_ne in H by congruence. eapply Hm, H.
Qed.

Lemma samples_well_formed :
  all_well_formed Samples.vars /\ all_well_formed Samples.feed.
Proof.
  split; repeat apply all_well_formed_insert;
    reflexivity || apply all_well_formed_empty.
Qed.

(** X15: a run that fetches tensors only, like the two runs that print the
    layer and the variables, leaves the variables of the session as they
    are and returns one array for each fetch; with well-formed variables,
    feeds and constants, every returned array has as many entries as its
    shape says. *)
Theorem fetching_tensors_changes_nothing
    (vars feed : gmap string ndarray) (ts : list tensor)
    (vs : list (option ndarray)) (vars' : gmap string ndarray) :
  all_well_formed vars -> all_well_formed feed ->
  Forall constants_well_formed ts ->
  session_run vars feed (map FetchTensor ts) = Ok (vs, vars') ->
  vars' = vars
  /\ Forall2 (fun t o => exists v, o = Some v /\ eval vars feed t = Ok v
                                   /\ well_formed v) ts vs.
Proof.
  intros Hv Hf Hc. unfold session_run. intros E.
  apply bind_ok in E as (vs0 & Evs & E). apply bind_ok in E as (vars1 & Eap & E).
  inversion E; subst vs0 vars1. clear E. split.
  - clear Evs Hc.
    assert (H : forall vars0 vars1,
               apply_fetches vars feed (map FetchTensor ts) vars0 = Ok vars1 ->
               vars1 = vars0).
    { clear Eap. induction ts as [| t ts IH]; intros vars0 vars1 E; cbn in E.
      - inversion E; reflexivity.
      - apply IH, E. }
    apply H, Eap.
  - clear Eap. revert vs Evs.
    induction Hc as [| t ts Ht Hts IH]; intros vs E; cbn [map fetch_values] in E.
    + inversion E. constructor.
    + apply bind_ok in E as (o & Eo & E). apply bind_ok in E as (os & Eos & E).
      inversion E; subst vs. cbn [fetch_value] in Eo.
      apply bind_ok in Eo as (v & Ev & Eo). inversion Eo; subst o.
      constructor; [| apply IH, Eos].
      exists v. split; [reflexivity |]. split; [exact Ev |].
      exact (eval_well_formed vars feed t v Hv Hf Ht Ev).
Qed.

Lemma fetching_tensors_changes_nothing_witness :
  exists vs vars',
    session_run Samples.vars Samples.feed
      (map FetchTensor [Var "my_matrix"; Var "my_vector"]) = Ok (vs, vars')
    /\ vars' = Samples.vars.
Proof.
  eexists _, _. split; [reflexivity |].
  refine (proj1 (fetching_tensors_changes_nothing Samples.vars Samples.feed
                   [Var "my_matrix"; Var "my_vector"] _ _
                   (proj1 samples_well_formed) (proj2 samples_well_formed) _ _)).
  - repeat constructor.
  - reflexivity.
Defined.

(** X16: a descent step on a loss that is built from some variable and
    evaluates to a scalar succeeds and returns a scalar for the loss; after
    it the session holds the same variables with the same shapes, each with
    as many entries as its shape says: the gradient of every variable has
    the variable's shape.  ([minimize] refuses a loss that depends on no
    variable.) *)
Theorem descent_step_keeps_the_shapes
    (vars feed : gmap string ndarray) (rate : Q) (loss : tensor) (v : ndarray) :
  variables loss <> ∅ ->
  all_well_formed vars -> all_well_formed feed -> constants_well_formed loss ->
  eval vars feed loss = Ok v -> shape v = [] ->
  exists l vars',
    session_run vars feed [FetchMinimize rate loss; FetchTensor loss]
    = Ok ([None; Some l], vars')
    /\ shape l = []
    /\ all_well_formed vars'
    /\ forall x,
         match vars !! x, vars' !! x with
         | Some u, Some u' => shape u' = shape u
         | None, None => True
         | _, _ => False
         end.
Proof.
  intros _ Hv Hf Hc E Hs.
  destruct (backprop_fits vars feed loss Hv Hf Hc v (NDArray [] [1]) ∅ E)
    as (gs & Hg & Hfit).
  { cbn. congruence. }
  { reflexivity. }
  { intros x g Hx. rewrite lookup_empty in Hx. discriminate. }
  unfold session_run. cbn [fetch_values fetch_value apply_fetches].
  rewrite E. cbn [bind]. unfold gradients. rewrite Hg. cbn [bind].
  eexists _, _. split; [reflexivity |]. split; [exact Hs |]. split.
  - intros x u'. rewrite lookup_merge.
    destruct (vars !! x) as [u |] eqn:Ex, (gs !! x) as [g |] eqn:Eg; cbn;
      intros H; inversion H; subst.
    + destruct (Hfit _ _ Eg) as (u0 & Hu0 & Sg & Wg).
      rewrite Ex in Hu0. inversion Hu0; subst u0.
      apply descend_well_formed; [eapply Hv, Ex | exact Wg | exact Sg].
    + eapply Hv, Ex.
  - intros x. rewrite lookup_merge.
    destruct (vars !! x) as [u |], (gs !! x) as [g |]; cbn; reflexivity || exact I.
Qed.

Lemma descent_step_keeps_the_shapes_witness :
  exists l vars',
    session_run Samples.vars Samples.feed
      [FetchMinimize (1 # 10) (loss (Add the_relu_vector (Const (NDArray [3%nat] [1; 1; 1]))));
       FetchTensor (loss (Add the_relu_vector (Const (NDArray [3%nat] [1; 1; 1]))))]
    = Ok ([None; Some l], vars')
    /\ shape l = []
    /\ all_well_formed vars'.
Proof.
  assert (Hne : variables (loss (Add the_relu_vector
                                     (Const (NDArray [3%nat] [1; 1; 1])))) <> ∅).
  { intros E. assert (H : "my_matrix" ∈ (∅ : gset string)).
    { rewrite <- E. apply (bool_decide_unpack _). vm_compute. exact I. }
    apply elem_of_empty in H. exact H. }
  destruct (descent_step_keeps_the_shapes Samples.vars Samples.feed (1 # 10)
              (loss (Add the_relu_vector (Const (NDArray [3%nat] [1; 1; 1]))))
              (NDArray [] [(3 + 1 - 1) * (3 + 1 - 1)
                           + ((Qmax 0 0 + 1 - 0) * (Qmax 0 0 + 1 - 0)
                              + ((Qmax (-9 # 2) 0 + 1 - 0) * (Qmax (-9 # 2) 0 + 1 - 0)
                                 + 0))])
              Hne (proj1 samples_well_formed) (proj2 samples_well_formed))
    as (l & vars' & Hrun & Hl & Hwf & _).
  - cbn. repeat split.
  - vm_compute. reflexivity.
  - reflexivity.
  - exists l, vars'. split; [exact Hrun |]. split; [exact Hl | exact Hwf].
Defined.

(** ** The initializer *)

Lemma foldr_insert_lookup (inits : list (string * ndarray)) (vars : gmap string ndarray)
    (x : string) (v : ndarray) :
  NoDup (map fst inits) -> (x, v) ∈ inits ->
  foldr (fun kv m => <[kv.1 := kv.2]> m) vars inits !! x = Some v.
Proof.
  induction inits as [| [y u] inits IH]; intros Hnd Hin; cbn in *.
  - inversion Hin.
  - apply NoDup_cons in Hnd as [Hy Hnd].
    apply elem_of_cons in Hin as [E | Hin].
    + inversion E; subst. apply lookup_insert_eq.
    + rewrite lookup_insert_ne; [apply IH; assumption |].
      intros ->. apply Hy. apply list_elem_of_fmap. exists (x, v). split; [reflexivity | exact Hin].
Qed.

Lemma foldr_insert_other (inits : list (string * ndarray)) (vars : gmap string ndarray)
    (y : string) :
  y ∉ map fst inits ->
  foldr (fun kv m => <[kv.1 := kv.2]> m) vars inits !! y = vars !! y.
Proof.
  induction inits as [| [x u] inits IH]; intros Hy; cbn in *.
  - reflexivity.
  - apply not_elem_of_cons in Hy as [Hne Hy].
    rewrite lookup_insert_ne by congruence. apply IH, Hy.
Qed.

Lemma initializer_run (vars feed : gmap string ndarray) (inits : list (string * ndarray)) :
  session_run vars feed [FetchInit inits]
  = Ok ([None], foldr (fun kv m => <[kv.1 := kv.2]> m) vars inits).
Proof. reflexivity. Qed.

(** X17: running [tf.global_variables_initializer()] gives every variable
    created so far the value it was created with, whatever the session held
    before, provided no two variables share a name: fetching a variable right
    after returns its initial value.  Nothing is printed and variables the
    graph does not know are left alone. *)
Theorem initializer_sets_the_initial_values (w : world) (x : string) (v : ndarray) :
  NoDup (map fst (global_variables w)) ->
  (x, v) ∈ global_variables w ->
  exists w',
    initialize_and_fetch x w = Done [Some v] w'
    /\ session_vars w' !! x = Some v
    /\ (forall y, y ∉ map fst (global_variables w) ->
                  session_vars w' !! y = session_vars w !! y)
    /\ global_variables w' = global_variables w
    /\ stdout w' = stdout w.
Proof.
  intros Hnd Hin.
  pose proof (foldr_insert_lookup _ (session_vars w) x v Hnd Hin) as Hx.
  unfold initialize_and_fetch, bindM, tf_global_variables_initializer, run.
  rewrite initializer_run. cbn [session_vars np_random global_variables stdout].
  unfold session_run. cbn [fetch_values fetch_value eval apply_fetches].
  rewrite Hx. cbn [bind].
  eexists. split; [reflexivity |]. cbn [session_vars global_variables stdout].
  split; [exact Hx |]. split; [| split; reflexivity].
  intros y Hy. apply foldr_insert_other, Hy.
Qed.

Lemma initializer_sets_the_initial_values_witness :
  exists w',
    initialize_and_fetch "my_vector" Samples.a_world
    = Done [Some (NDArray [3%nat] [-2; 1; 1 # 2])] w'
    /\ session_vars w' !! "my_vector" = Some (NDArray [3%nat] [-2; 1; 1 # 2]).
Proof.
  destruct (initializer_sets_the_initial_values Samples.a_world "my_vector"
              (NDArray [3%nat] [-2; 1; 1 # 2]))
    as (w' & Hrun & Hx & _).
  - apply (bool_decide_unpack _). vm_compute. exact I.
  - apply elem_of_cons. right. apply elem_of_cons. left. reflexivity.
  - exists w'. split; [exact Hrun | exact Hx].
Defined.

(** ** What the notebook prints *)

Lemma variables_cell_tensors (w : world) :
  exists w', variables_cell w = Done (Var "my_matrix", Var "my_vector") w'.
Proof. eexists. reflexivity. Qed.

Lemma notebook_after_session (rate : Q) (n : nat) (w : world) :
  notebook rate n w
  = bindM before_training
      (fun t => training_cell rate n t ;;;
                retrieval_cell (Var "my_matrix") (Var "my_vector") ;;;
                batch_cell) w.
Proof.
  unfold notebook, before_training, bindM.
  destruct (constants_cells w) as [[] w1 | e]; [| reflexivity].
  destruct (variables_cell_tensors w1) as [w2 ->]. cbn [fst snd].
  destruct (layer_cell _ _ w2) as [t w3 | e]; [| reflexivity].
  destruct (session_cell t w3) as [[] w4 | e]; reflexivity.
Qed.

Lemma session_cell_prints_layer (w : world) (W b : ndarray) :
  global_variables w = [("my_matrix", W); ("my_vector", b)] ->
  is_array [3; 2]%nat W -> is_array [3%nat] b ->
  exists v,
    eval (<["my_matrix" := W]> (<["my_vector" := b]> ∅))
         {[ "my_input" := NP.asarray [1; 2] ]} the_relu_vector = Ok v
    /\ session_cell the_relu_vector w
       = Done tt (World (np_random w) (global_variables w)
                        (<["my_matrix" := W]> (<["my_vector" := b]> ∅))
                        (stdout w ++ [OutArrays [v]])).
Proof.
  intros Hgv AW Ab.
  destruct (is_array_32 W AW) as (w11 & w12 & w21 & w22 & w31 & w32 & ->).
  destruct (is_array_3 b Ab) as (b1 & b2 & b3 & ->).
  eexists. split; [eapply eval_relu_vector; reflexivity |].
  unfold session_cell, bindM, tf_Session, tf_global_variables_initializer, run.
  cbn [session_vars global_variables np_random stdout].
  rewrite Hgv.
  cbn [session_run fetch_values fetch_value apply_fetches bind foldr fst snd].
  cbn [session_vars global_variables np_random stdout].
  unfold session_run. cbn [fetch_values fetch_value].
  erewrite eval_relu_vector; [| reflexivity ..].
  cbn [bind apply_fetches keep_arrays omap].
  unfold print. cbn. reflexivity.
Qed.

Lemma before_training_fresh (draws : nat -> Q) :
  exists v,
    eval (initial_vars draws) {[ "my_input" := NP.asarray [1; 2] ]} the_relu_vector
    = Ok v
    /\
    before_training (fresh draws)
    = Done the_relu_vector
        (World (fun i => draws (15 + i)%nat)
           [("my_matrix", NDArray [3; 2]%nat (map draws (seq 6 6)));
            ("my_vector", NDArray [3%nat] (map draws (seq 12 3)))]
           (initial_vars draws)
           [OutTensor (Const (NDArray [] [5]));
            OutTensor (Const (NDArray [3; 2]%nat (map draws (seq 0 6))));
            OutTensor (Var "my_matrix"); OutTensor (Var "my_vector");
            OutTensor placeholder_input;
            OutTensor (matrix_product (Var "my_matrix"));
            OutTensor (vector_sum (Var "my_matrix") (Var "my_vector"));
            OutTensor the_relu_vector;
            OutArrays [v]]).
Proof.
  unfold before_training, bindM.
  change (constants_cells (fresh draws))
    with (Done tt (World (fun i => draws (6 + i)%nat) [] ∅
                     [OutTensor (Const (NDArray [] [5]));
                      OutTensor (Const (NDArray [3; 2]%nat (map draws (seq 0 6))))])).
  cbv beta iota.
  set (W := NDArray [3; 2]%nat (map draws (seq 6 6))).
  set (b := NDArray [3%nat] (map draws (seq 12 3))).
  set (out1 := [OutTensor (Const (NDArray [] [5]));
                OutTensor (Const (NDArray [3; 2]%nat (map draws (seq 0 6))));
                OutTensor (Var "my_matrix"); OutTensor (Var "my_vector")]).
  match goal with
  | |- context [variables_cell ?w] =>
      change (variables_cell w)
        with (Done (Var "my_matrix", Var "my_vector")
                (World (fun i => draws (15 + i)%nat)
                   [("my_matrix", W); ("my_vector", b)] ∅ out1))
  end.
  cbv beta iota. cbn [fst snd].
  set (out2 := out1 ++ [OutTensor placeholder_input;
                        OutTensor (matrix_product (Var "my_matrix"));
                        OutTensor (vector_sum (Var "my_matrix") (Var "my_vector"));
                        OutTensor the_relu_vector]).
  match goal with
  | |- context [layer_cell ?W ?b ?w] =>
      change (layer_cell W b w)
        with (Done the_relu_vector
                (World (np_random w) (global_variables w) (session_vars w) out2))
  end.
  cbv beta iota. cbn [np_random global_variables session_vars].
  match goal with
  | |- context [session_cell _ ?w] =>
      destruct (session_cell_prints_layer w W b) as (v & Hv & ->);
        [reflexivity | split; reflexivity | split; reflexivity |]
  end.
  exists v. split; [exact Hv | reflexivity].
Qed.

Lemma session_run_loss_value vars feed rate t l vars' :
  session_run vars feed [FetchMinimize rate t; FetchTensor t]
  = Ok ([None; Some (NDArray [] [l])], vars') ->
  eval vars feed t = Ok (NDArray [] [l]).
Proof.
  unfold session_run. cbn [fetch_values fetch_value].
  destruct (eval vars feed t) as [v |]; cbn [bind]; [| discriminate].
  destruct (apply_fetches _ _ _ _); cbn [bind]; [| discriminate].
  intros E. inversion E. reflexivity.
Qed.

Lemma steps_stdout rate (ks : list nat) (w w' : world) :
  steps (descent_iteration rate the_loss) ks w w' ->
  exists ls, length ls = length ks /\ stdout w' = stdout w ++ zip_with OutIter ks ls.
Proof.
  induction 1 as [w | k ks w w1 w2 (out_vec & l & _ & _ & Hout) _ (ls & Hlen & IH)].
  - exists []. rewrite app_nil_r. split; reflexivity.
  - exists (l :: ls). split; [cbn; congruence |].
    rewrite IH, Hout, <- app_assoc. reflexivity.
Qed.

Lemma retrieval_prints_variables (w : world) (W b : ndarray) :
  session_vars w !! "my_matrix" = Some W ->
  session_vars w !! "my_vector" = Some b ->
  retrieval_cell (Var "my_matrix") (Var "my_vector") w
  = Done tt (World (np_random w) (global_variables w) (session_vars w)
                   (stdout w ++ [OutArrays [W]; OutArrays [b]])).
Proof.
  intros HW Hb.
  unfold retrieval_cell, bindM, run, session_run.
  cbn [fetch_values fetch_value eval]. rewrite HW, Hb.
  unfold print. cbn. rewrite <- app_assoc. reflexivity.
Qed.

(** The complete output *)
Lemma notebook_transcript (rate : Q) (n : nat) (draws : nat -> Q) :
  exists w v ls W b,
    notebook rate n (fresh draws) = Done tt w
    /\ eval (initial_vars draws) {[ "my_input" := NP.asarray [1; 2] ]} the_relu_vector
       = Ok v
    /\ length ls = n
    /\ stdout w
       = [OutTensor (Const (NDArray [] [5]));
          OutTensor (Const (NDArray [3; 2]%nat (map draws (seq 0 6))));
          OutTensor (Var "my_matrix"); OutTensor (Var "my_vector");
          OutTensor placeholder_input;
          OutTensor (matrix_product (Var "my_matrix"));
          OutTensor (vector_sum (Var "my_matrix") (Var "my_vector"));
          OutTensor the_relu_vector;
          OutArrays [v];
          OutText header]
         ++ zip_with OutIter (range n) ls
         ++ [OutArrays [W]; OutArrays [b]; OutTensor batched_vectors]
    /\ (session_vars w !! "my_matrix" = Some W /\ is_array [3; 2]%nat W)
    /\ (session_vars w !! "my_vector" = Some b /\ is_array [3%nat] b)
    /\ match ls with
       | l0 :: _ =>
           eval (initial_vars draws)
             (training_feed (NDArray [2%nat] [draws 15%nat; draws 16%nat])
                (NDArray [3%nat] [Qmax 0 (draws 15%nat) * 1;
                                  Qmax 0 (draws 16%nat) * 0; Qmax 0 0 * 0]))
             the_loss
           = Ok (NDArray [] [l0])
       | [] => True
       end.
Proof.
  destruct (before_training_fresh draws) as (v & Hv & Hpre).
  rewrite notebook_after_session. unfold bindM at 1. rewrite Hpre.
  unfold bindM, training_cell, bindM, print.
  cbn [np_random global_variables session_vars stdout].
  fold the_loss.
  match goal with
  | |- context [for_each _ _ ?w] =>
      destruct (training_loop_ok rate n 0 w)
        as (ls & w1 & Hloop & Hsteps & Hlen & Hls & Hout & Hrnd & Hgv & Hv1);
        [ eexists _, _; repeat split; reflexivity |]
  end.
  unfold range. rewrite Hloop.
  destruct Hv1 as (W & b & HW & AW & Hb & Ab).
  rewrite (retrieval_prints_variables w1 W b HW Hb).
  exists (World (np_random w1) (global_variables w1) (session_vars w1)
            ((stdout w1 ++ [OutArrays [W]; OutArrays [b]])
             ++ [OutTensor batched_vectors])), v, ls, W, b.
  split; [reflexivity |]. split; [exact Hv |]. split; [exact Hlen |].
  split; [cbn [stdout]; rewrite Hout; cbn [stdout]; rewrite <- !app_assoc; reflexivity |].
  split; [split; assumption |]. split; [split; assumption |].
  destruct ls as [| l0 ls0]; [exact I |].
  destruct n as [| n]; [discriminate Hlen |].
  cbn [seq] in Hsteps, Hout.
  inversion Hsteps as [| k ks wa wb wc (out_vec & l & Ht & Hrun & Hout1) Htail];
    subst.
  destruct (steps_stdout _ _ _ _ Htail) as (ls' & _ & Hout2).
  rewrite Hout2, Hout1 in Hout. rewrite <- app_assoc in Hout.
  apply app_inv_head in Hout. cbn in Hout. inversion Hout; subst.
  apply session_run_loss_value in Hrun.
  change (sample _) with (NDArray [2%nat] [draws 15%nat; draws 16%nat]) in Ht, Hrun.
  rewrite target_value in Ht. inversion Ht; subst.
  exact Hrun.
Qed.

(** X18: run from a freshly opened notebook, the cells print, in this order:
    the two constants, the two variables, the placeholder and the three
    tensors of the layer, the value of the layer on the input [(1, 2)] with
    the variables as initialized, the header of the table, one line for each
    of the [n] iterations, the matrix and the vector the session holds when
    the loop has ended, and the batched placeholder; nothing else. *)
Theorem notebook_prints_in_order (rate : Q) (n : nat) (draws : nat -> Q) :
  exists w v ls W b,
    notebook rate n (fresh draws) = Done tt w
    /\ eval (initial_vars draws) {[ "my_input" := NP.asarray [1; 2] ]} the_relu_vector
       = Ok v
    /\ length ls = n
    /\ stdout w
       = [OutTensor (Const (NDArray [] [5]));
          OutTensor (Const (NDArray [3; 2]%nat (map draws (seq 0 6))));
          OutTensor (Var "my_matrix"); OutTensor (Var "my_vector");
          OutTensor placeholder_input;
          OutTensor (matrix_product (Var "my_matrix"));
          OutTensor (vector_sum (Var "my_matrix") (Var "my_vector"));
          OutTensor the_relu_vector;
          OutArrays [v];
          OutText header]
         ++ zip_with OutIter (range n) ls
         ++ [OutArrays [W]; OutArrays [b]; OutTensor batched_vectors]
    /\ (session_vars w !! "my_matrix" = Some W /\ is_array [3; 2]%nat W)
    /\ (session_vars w !! "my_vector" = Some b /\ is_array [3%nat] b).
Proof.
  destruct (notebook_transcript rate n draws)
    as (w & v & ls & W & b & Hrun & Hv & Hlen & Hout & HW & Hb & _).
  exists w, v, ls, W, b.
  split; [exact Hrun |]. split; [exact Hv |]. split; [exact Hlen |].
  split; [exact Hout |]. split; [exact HW | exact Hb].
Qed.

(** X19: from the same random draws the two variants print the same first
    eleven outputs, up to and including the line of iteration 0: the loss of
    a step is computed before the step updates the variables, so the two
    learning rates show from iteration 1 on only. *)
Theorem variants_agree_until_the_first_update (draws : nat -> Q) :
  exists w1 w2 common l0 rest1 rest2,
    part_000 (fresh draws) = Done tt w1
    /\ ipynb (fresh draws) = Done tt w2
    /\ stdout w1 = common ++ OutIter 0 l0 :: rest1
    /\ stdout w2 = common ++ OutIter 0 l0 :: rest2
    /\ length common = 10%nat.
Proof.
  destruct (notebook_transcript (1 # 10) 150 draws)
    as (w1 & v1 & ls1 & W1 & b1 & Hrun1 & Hv1 & Hlen1 & Hout1 & _ & _ & Hl1).
  destruct (notebook_transcript (7 # 100) 15 draws)
    as (w2 & v2 & ls2 & W2 & b2 & Hrun2 & Hv2 & Hlen2 & Hout2 & _ & _ & Hl2).
  rewrite Hv1 in Hv2. inversion Hv2; subst v2.
  destruct ls1 as [| l1 ls1]; [discriminate Hlen1 |].
  destruct ls2 as [| l2 ls2]; [discriminate Hlen2 |].
  rewrite Hl1 in Hl2. inversion Hl2; subst l2.
  unfold range in Hout1, Hout2.
  change (seq 0 150) with (0%nat :: seq 1 149) in Hout1.
  change (seq 0 15) with (0%nat :: seq 1 14) in Hout2.
  cbn [zip_with] in Hout1, Hout2.
  eexists w1, w2, _, l1, _, _.
  split; [exact Hrun1 |]. split; [exact Hrun2 |].
  split; [exact Hout1 |]. split; [exact Hout2 |].
  reflexivity.
Qed.

(** ** Names *)

(** X21: run top to bottom, no cell of either notebook reads a name before
    a statement has bound it ([print] and [range] are the interpreter's own),
    no name is bound at two places, and the two variants bind the same names
    in the same order. *)
Theorem names_are_bound_before_use_and_once :
  Scope.unbound_reads Py.Part000.cells = []
  /\ Scope.unbound_reads Py.Ipynb.cells = []
  /\ NoDup (Scope.bound_names Py.Part000.cells)
  /\ Scope.bound_names Py.Ipynb.cells = Scope.bound_names Py.Part000.cells.
Proof.
  split; [vm_compute; reflexivity |].
  split; [vm_compute; reflexivity |].
  split; [apply (bool_decide_unpack _); vm_compute; exact I |].
  vm_compute. reflexivity.
Qed.

(** ** The layer of the last cell *)

(** X22: [tf.layers.dense] on the input reshaped to one row computes the
    layer built by hand: with the transposed matrix as its kernel and the
    vector as its bias, its one row has the entries of [relu_vector]. *)
Theorem dense_layer_computes_the_relu_layer
    (vars feed : gmap string ndarray)
    (w11 w12 w21 w22 w31 w32 b1 b2 b3 x1 x2 : Q) :
  vars !! "my_matrix" = Some (NDArray [3; 2]%nat [w11; w12; w21; w22; w31; w32]) ->
  vars !! "my_vector" = Some (NDArray [3%nat] [b1; b2; b3]) ->
  feed !! "my_input" = Some (NDArray [2%nat] [x1; x2]) ->
  exists v inputs kernel row,
    eval vars feed the_relu_vector = Ok v
    /\ Dense.reshape_to (NDArray [2%nat] [x1; x2]) [-1; 2]%Z = Ok inputs
    /\ transpose (NDArray [3; 2]%nat [w11; w12; w21; w22; w31; w32]) = Ok kernel
    /\ Dense.dense inputs 3 kernel (NDArray [3%nat] [b1; b2; b3]) = Ok row
    /\ shape v = [3%nat]
    /\ shape row = [1; 3]%nat
    /\ Forall2 Qeq (data row) (data v).
Proof.
  intros HW Hb Hx.
  exists (NDArray [3%nat]
            [relu_scalar (w11 * x1 + (w12 * x2 + 0) + b1);
             relu_scalar (w21 * x1 + (w22 * x2 + 0) + b2);
             relu_scalar (w31 * x1 + (w32 * x2 + 0) + b3)]),
         (NDArray [1; 2]%nat [x1; x2]),
         (NDArray [2; 3]%nat [w11; w21; w31; w12; w22; w32]),
         (NDArray [1; 3]%nat
            [relu_scalar (x1 * w11 + (x2 * w12 + 0) + b1);
             relu_scalar (x1 * w21 + (x2 * w22 + 0) + b2);
             relu_scalar (x1 * w31 + (x2 * w32 + 0) + b3)]).
  split; [eapply eval_relu_vector; eassumption |].
  split; [reflexivity |]. split; [reflexivity |]. split; [reflexivity |].
  split; [reflexivity |]. split; [reflexivity |].
  cbn [data]. repeat constructor; apply relu_scalar_compat; ring.
Qed.

Lemma dense_layer_computes_the_relu_layer_witness :
  exists v row,
    eval Samples.vars Samples.feed the_relu_vector = Ok v
    /\ Dense.dense (NDArray [1; 2]%nat [1; 2]) 3
         (NDArray [2; 3]%nat [1; -1; 3; 2; 0; -4]) (NDArray [3%nat] [-2; 1; 1 # 2])
       = Ok row
    /\ Forall2 Qeq (data row) (data v).
Proof.
  destruct (dense_layer_computes_the_relu_layer Samples.vars Samples.feed
              1 2 (-1) 0 3 (-4) (-2) 1 (1 # 2) 1 2 eq_refl eq_refl eq_refl)
    as (v & inputs & kernel & row & Hv & Hin & Hk & Hd & _ & _ & Hrow).
  inversion Hin; subst inputs. inversion Hk; subst kernel.
  exists v, row. split; [exact Hv |]. split; [exact Hd | exact Hrow].
Defined.
